(** * SWAPI explorer: list normalisation, view state and reference handling

    A shallow embedding of the data and view-state logic of the catalog
    explorer: the Catalog Client ([src/api/swapi.ts]), the list page
    ([ResourceList]) and the detail page ([ResourceDetail], [RelatedItem]).

    JavaScript values are modelled as they exist at run time: the list page
    duck-types the response ([data: any]), so responses are values of
    [JsVal], property reads can throw, and [||] is truthiness-directed. *)

From Stdlib Require Import ZArith Lia Ascii.
From stdpp Require Import base option list strings gmap.

Set Warnings "-register-all".

(** ** JavaScript values *)

Module Js.

(** Run-time values: the JSON values, [undefined], and the members every
    object inherits from [Object.prototype] ([JBuiltin]: a built-in function,
    or for [__proto__] the prototype object).  A [JBuiltin] is never part of
    a response; the program only ever tests one for truthiness, and the own
    properties of functions are not modelled.  Numbers are the integers: the
    program only reads counts ([total_records], [total_pages], [length]) and
    time stamps. *)
Inductive JsVal : Type :=
| JUndefined
| JNull
| JBool (b : bool)
| JNum (n : Z)
| JStr (s : string)
| JArr (xs : list JsVal)
| JObj (fields : gmap string JsVal)
| JBuiltin (k : string).

(** An object literal. *)
Definition obj (fields : list (string * JsVal)) : JsVal :=
  JObj (list_to_map fields).

(** [ToBoolean]: the values for which [if (v)] takes the else branch are
    [undefined], [null], [false], [0] and the empty string. *)
Definition truthy (v : JsVal) : bool :=
  match v with
  | JUndefined | JNull => false
  | JBool b => b
  | JNum n => negb (n =? 0)%Z
  | JStr s => negb (String.eqb s "")
  | JArr _ | JObj _ | JBuiltin _ => true
  end.

(** [a || b] once both operands are values. *)
Definition js_or (a b : JsVal) : JsVal := if truthy a then a else b.

Definition nullish (v : JsVal) : bool :=
  match v with JUndefined | JNull => true | _ => false end.

Definition isArray (v : JsVal) : bool :=
  match v with JArr _ => true | _ => false end.

(** Thrown values: the language's own [TypeError] and the rejection of an
    HTTP request by the transport (axios). *)
Inductive Exn : Type :=
| TypeError (msg : string)
| HttpError (status : option Z) (msg : string).

Inductive Result (A : Type) : Type :=
| Ok (a : A)
| Throw (e : Exn).
Arguments Ok {A} a.
Arguments Throw {A} e.

#[export] Instance Result_ret : MRet Result := λ A a, Ok a.
#[export] Instance Result_bind : MBind Result := λ A B f r,
  match r with Ok a => f a | Throw e => Throw e end.

(** [xs.map(f)] for a callback that may throw: the first exception aborts
    the traversal. *)
Fixpoint mapR {A B} (f : A → Result B) (xs : list A) : Result (list B) :=
  match xs with
  | [] => Ok []
  | x :: xs' => y ← f x; ys ← mapR f xs'; mret (y :: ys)
  end.

(** Property names every object literal inherits from [Object.prototype]
    (ECMAScript, with the Annex B accessors all browsers ship).  Each of them
    is bound to a function, or for [__proto__] to the prototype object. *)
Definition objectPrototypeKeys : list string :=
  [ "constructor"; "hasOwnProperty"; "isPrototypeOf"; "propertyIsEnumerable";
    "toLocaleString"; "toString"; "valueOf"; "__proto__";
    "__defineGetter__"; "__defineSetter__"; "__lookupGetter__";
    "__lookupSetter__" ].

Definition inherited (k : string) : bool :=
  bool_decide (k ∈ objectPrototypeKeys).

(** A member found on the prototype chain when there is no own property:
    the names of [Object.prototype] are bound, every other name is
    [undefined].  (The prototypes of arrays, strings and numbers add methods
    of their own; the program reads none of them.) *)
Definition fromPrototype (k : string) : JsVal :=
  if inherited k then JBuiltin k else JUndefined.

(** [fields[k]] on an object with the own properties [fields]. *)
Definition lookupMember (fields : gmap string JsVal) (k : string) : JsVal :=
  match fields !! k with
  | Some v => v
  | None => fromPrototype k
  end.

(** The read [v.k].  Reading a property of [undefined] or [null] throws; an
    array and a string have [length]; an object yields its own field, else
    what the prototype chain gives. *)
Definition get (v : JsVal) (k : string) : Result JsVal :=
  match v with
  | JUndefined | JNull =>
      Throw (TypeError ("Cannot read properties of undefined (reading '" +:+ k +:+ "')"))
  | JObj fields => Ok (lookupMember fields k)
  | JArr xs =>
      if String.eqb k "length" then Ok (JNum (Z.of_nat (length xs)))
      else Ok (fromPrototype k)
  | JStr s =>
      if String.eqb k "length" then Ok (JNum (Z.of_nat (String.length s)))
      else Ok (fromPrototype k)
  | JBool _ | JNum _ | JBuiltin _ => Ok (fromPrototype k)
  end.

(** The test ['k' in v].  It throws on a primitive; on an object it also
    sees the inherited names.  For arrays only [length] and the names of
    [Object.prototype] are modelled (the program tests no index and no
    array method). *)
Definition has_in (k : string) (v : JsVal) : Result bool :=
  match v with
  | JObj fields => Ok (bool_decide (is_Some (fields !! k)) || inherited k)
  | JArr _ => Ok (String.eqb k "length" || inherited k)
  | JBuiltin _ => Ok (inherited k)
  | _ => Throw (TypeError ("Cannot use 'in' operator to search for '" +:+ k +:+ "'"))
  end.

End Js.

Export Js.

(** ** The list page: [ResourceList] *)

Module ResourceList.

(** [data && 'result' in data && Array.isArray(data.result)], as the
    condition of an [if]. *)
Definition isSearchResponse (data : JsVal) : Result bool :=
  if truthy data then
    b ← has_in "result" data;
    if b : bool then r ← get data "result"; mret (isArray r) else mret false
  else mret false.

(** [data && 'results' in data && Array.isArray(data.results)]. *)
Definition isPaginatedResponse (data : JsVal) : Result bool :=
  if truthy data then
    b ← has_in "results" data;
    if b : bool then r ← get data "results"; mret (isArray r) else mret false
  else mret false.

(** The callback of [data.result.map]: a search result item is reshaped into
    [{ uid, name, url }] with
    [name: properties.name || properties.title || 'Unknown']. *)
Definition toListItem (item : JsVal) : Result JsVal :=
  properties ← get item "properties";
  uid ← get item "uid";
  name ← get properties "name";
  name' ← (if truthy name then mret name
           else title ← get properties "title";
                mret (js_or title (JStr "Unknown")));
  url ← get properties "url";
  mret (JObj (<["uid" := uid]> (<["name" := name']> (<["url" := url]> ∅)))).

Definition arrayItems (v : JsVal) : list JsVal :=
  match v with JArr xs => xs | _ => [] end.

(** [getItems]: the rows of the page.  [data] is [undefined] until the query
    has produced a response. *)
Definition getItems (data : JsVal) : Result (list JsVal) :=
  if negb (truthy data) then mret []
  else
    s ← isSearchResponse data;
    if s : bool then
      r ← get data "result";
      mapR toListItem (arrayItems r)
    else
      p ← isPaginatedResponse data;
      if p : bool then r ← get data "results"; mret (arrayItems r)
      else mret [].

(** [getTotalRecords]. *)
Definition getTotalRecords (data : JsVal) : Result JsVal :=
  if negb (truthy data) then mret (JNum 0)
  else
    s ← isSearchResponse data;
    if s : bool then
      r ← get data "result";
      get r "length"
    else
      p ← isPaginatedResponse data;
      if p : bool then get data "total_records"
      else mret (JNum 0).

(** [getTotalPages]: search results are not paginated by the API. *)
Definition getTotalPages (data : JsVal) : Result JsVal :=
  if negb (truthy data) then mret (JNum 0)
  else
    s ← isSearchResponse data;
    if s : bool then mret (JNum 1)
    else
      p ← isPaginatedResponse data;
      if p : bool then get data "total_pages"
      else mret (JNum 0).

(** The name shown for a row: [item.name]. *)
Definition displayName (item : JsVal) : JsVal :=
  match item with
  | JObj fields => lookupMember fields "name"
  | _ => JUndefined
  end.

(** A search result item as [SearchResultItem<T>] declares it: an object
    carrying a [properties] object. *)
Definition hasProperties (item : JsVal) : Prop :=
  ∃ props, get item "properties" = Ok props ∧ nullish props = false.

(** The fallback chain of the specification: name, else title, else the
    literal ["Unknown"]. *)
Definition nameTitleUnknown (name title : JsVal) : JsVal :=
  if truthy name then name
  else if truthy title then title
  else JStr "Unknown".

(** The relation between a search result item and the row made from it. *)
Definition rowOf (item out : JsVal) : Prop :=
  ∃ props n t,
    get item "properties" = Ok props ∧
    get props "name" = Ok n ∧ get props "title" = Ok t ∧
    displayName out = nameTitleUnknown n t.

(** Sample responses of the external API. *)
Definition sampleSearchItems : list JsVal :=
  [ obj [("uid", JStr "1");
         ("properties", obj [("name", JStr "Luke Skywalker");
                             ("url", JStr "https://www.swapi.tech/api/people/1")])];
    obj [("uid", JStr "4");
         ("properties", obj [("title", JStr "A New Hope");
                             ("url", JStr "https://www.swapi.tech/api/films/1")])];
    obj [("uid", JStr "9"); ("properties", obj [("name", JStr "")])] ].

Definition sampleSearch : JsVal :=
  obj [("message", JStr "ok"); ("result", JArr sampleSearchItems)].

Definition samplePage : JsVal :=
  obj [("message", JStr "ok"); ("total_records", JNum 82);
       ("total_pages", JNum 9);
       ("results", JArr [obj [("uid", JStr "11"); ("name", JStr "Anakin Skywalker");
                              ("url", JStr "https://www.swapi.tech/api/people/11")]])].

(** Sort state of the name column: [null] (no sort), [true] (ascending),
    [false] (descending). *)
Definition SortState : Type := option bool.
Definition UNSORTED : SortState := None.
Definition ASCENDING : SortState := Some true.
Definition DESCENDING : SortState := Some false.

(** The updater of [handleNameSort]. *)
Definition handleNameSort (prev : SortState) : SortState :=
  match prev with
  | None => Some true
  | Some true => Some false
  | Some false => None
  end.

End ResourceList.

(** ** The list page with stored columns: [ResourceList] of
    [src/pages/login/Login.tsx] *)

Module ResourceListColumns.

(** [sortConfig: Record<string, boolean | null>], stored per resource type:
    a column maps to [null] ([None]), [true] or [false]. *)
Definition defaultSortConfig : gmap string (option bool) :=
  {[ "name" := None ]}.

(** The updater of [handleColumnSort]: every other stored column is set to
    [null], then the clicked column steps from [null] to [true], from [true]
    to [false], and from anything else ([false], or [undefined] when the
    column is not stored yet) to [null]. *)
Definition handleColumnSort (columnKey : string)
    (prev : gmap string (option bool)) : gmap string (option bool) :=
  let newSortConfig :=
    map_imap (λ key value,
                Some (if decide (key = columnKey) then value else None)) prev in
  let currentValue := prev !! columnKey in
  match currentValue with
  | Some None => <[columnKey := Some true]> newSortConfig
  | Some (Some true) => <[columnKey := Some false]> newSortConfig
  | _ => <[columnKey := None]> newSortConfig
  end.

(** An entry of the favorites list as the list page writes it:
    [{ id, type, name }]. *)
Record ListFavorite : Type := mkListFavorite {
  fav_id : string;
  fav_type : string;
  fav_name : JsVal
}.

(** [item.id === id && item.type === type]; [type] is the route parameter as
    it comes, the list page does not validate it. *)
Definition favKey (type uid : string) (item : ListFavorite) : bool :=
  String.eqb (fav_id item) uid && String.eqb (fav_type item) type.

(** [isFavorite]: [favorites.some(...)]. *)
Definition isFavorite (type : string) (favorites : list ListFavorite)
    (uid : string) : bool :=
  existsb (favKey type uid) favorites.

(** The updater of the list page's [toggleFavorite]: the membership test is
    made on [prev] itself. *)
Definition toggleFavorite (type uid : string) (nm : JsVal)
    (prev : list ListFavorite) : list ListFavorite :=
  if existsb (favKey type uid) prev
  then filter (λ item, negb (favKey type uid item)) prev
  else prev ++ [mkListFavorite uid type nm].

(** The key of an entry. *)
Definition favKeyOf (f : ListFavorite) : string * string := (fav_type f, fav_id f).

(** The counter of the statistics panel:
    [favorites.filter(f => f.type === type).length]. *)
Definition favoritesOfType (type : string) (favorites : list ListFavorite) : nat :=
  length (filter (λ f, String.eqb (fav_type f) type) favorites).

End ResourceListColumns.

(** ** The Catalog Client: [src/api/swapi.ts] *)

Module Api.

(** The six resource types of the external API.  At run time a
    [ResourceType] is a string; the type annotation is erased. *)
Definition resourceTypes : list string :=
  ["people"; "planets"; "films"; "species"; "vehicles"; "starships"].

Definition baseURL : string := "https://swapi.tech/api".

(** A GET request of the shared axios client: a path under [baseURL] and the
    query parameters. *)
Record Request : Type := mkRequest {
  req_path : string;
  req_params : list (string * JsVal)
}.

(** What reaches the caller of an async function, together with the lines
    written by [console.error]. *)
Definition Console : Type := list (string * Exn).
Definition IO (A : Type) : Type := Console → Result A * Console.

Definition ret {A} (a : A) : IO A := λ c, (Ok a, c).
Definition throw {A} (e : Exn) : IO A := λ c, (Throw e, c).
Definition bind {A B} (m : IO A) (k : A → IO B) : IO B := λ c,
  match m c with
  | (Ok a, c') => k a c'
  | (Throw e, c') => (Throw e, c')
  end.
Definition tryCatch {A} (body : IO A) (handler : Exn → IO A) : IO A := λ c,
  match body c with
  | (Ok a, c') => (Ok a, c')
  | (Throw e, c') => handler e c'
  end.
Definition consoleError (msg : string) (e : Exn) : IO unit := λ c,
  (Ok tt, c ++ [(msg, e)]).

(** [s.replace(pat, rep)] with a string pattern: the first occurrence only.
    (The [$] patterns of a replacement string are not interpreted; the
    program replaces by the empty string.) *)
Fixpoint replaceFirst (pat rep s : string) : string :=
  if String.prefix pat s
  then rep +:+ String.substring (String.length pat) (String.length s) s
  else match s with
       | EmptyString => EmptyString
       | String ch s' => String ch (replaceFirst pat rep s')
       end.

(** Whether [pat] occurs in [s]. *)
Fixpoint occurs (pat s : string) : bool :=
  String.prefix pat s ||
  match s with
  | EmptyString => false
  | String _ s' => occurs pat s'
  end.

Section Client.

(** The transport: [apiClient.get] resolves to the response body
    ([response.data]) or rejects. *)
Variable apiClientGet : Request → Result JsVal.

Definition await_get (r : Request) : IO JsVal := λ c, (apiClientGet r, c).

(** The parameters of a list request: [{ page }], and [name] when the search
    term is truthy.  [page] defaults to 1. *)
Definition searchGiven (search : option string) : bool :=
  match search with Some s => negb (String.eqb s "") | None => false end.

Definition listParams (page : option Z) (search : option string)
  : list (string * JsVal) :=
  ("page", JNum (default 1%Z page)) ::
  (if searchGiven search then [("name", JStr (default "" search))] else []).

Definition listRequest (type : string) (page : option Z) (search : option string)
  : Request :=
  mkRequest ("/" +:+ type) (listParams page search).

(** [getResources]: both branches of the [if (search)] issue the same
    request and return [response.data]; they differ in the static type of
    the response only. *)
Definition getResources (type : string) (page : option Z) (search : option string)
  : IO JsVal :=
  tryCatch
    (if searchGiven search
     then bind (await_get (listRequest type page search)) ret
     else bind (await_get (listRequest type page search)) ret)
    (λ error,
       bind (consoleError ("Error fetching " +:+ type +:+ ":") error)
            (λ _, throw error)).

Definition detailRequest (type id : string) : Request :=
  mkRequest ("/" +:+ type +:+ "/" +:+ id) [].

(** [getResourceById]. *)
Definition getResourceById (type id : string) : IO JsVal :=
  tryCatch
    (bind (await_get (detailRequest type id)) ret)
    (λ error,
       bind (consoleError ("Error fetching " +:+ type +:+ " with ID " +:+ id +:+ ":") error)
            (λ _, throw error)).

Definition urlRequest (url : string) : Request :=
  mkRequest (replaceFirst baseURL "" url) [].

(** [getResourceByUrl]. *)
Definition getResourceByUrl (url : string) : IO JsVal :=
  tryCatch
    (bind (await_get (urlRequest url)) ret)
    (λ error,
       bind (consoleError ("Error fetching resource at " +:+ url +:+ ":") error)
            (λ _, throw error)).

End Client.

(** Two transports that reject every request: no connection, and a 404
    answer. *)
Definition offline : Request → Result JsVal :=
  λ _, Throw (HttpError None "Network Error").
Definition notFound : Request → Result JsVal :=
  λ _, Throw (HttpError (Some 404%Z) "Request failed with status code 404").

End Api.

(** ** The detail page: [ResourceDetail] and [RelatedItem] *)

Module ResourceDetail.

(** The own properties of the object literal [resourceConfig] (the [icon]
    elements are left out: nothing reads them but the renderer). *)
Definition resourceConfig : gmap string JsVal :=
  list_to_map
    [ ("people", obj [("label", JStr "People"); ("color", JStr "blue")]);
      ("planets", obj [("label", JStr "Planets"); ("color", JStr "teal")]);
      ("films", obj [("label", JStr "Films"); ("color", JStr "violet")]);
      ("species", obj [("label", JStr "Species"); ("color", JStr "grape")]);
      ("vehicles", obj [("label", JStr "Vehicles"); ("color", JStr "orange")]);
      ("starships", obj [("label", JStr "Starships"); ("color", JStr "pink")]) ].

(** The test [resourceConfig[key] ? ... : ...]: an own entry is an object,
    a member inherited from [Object.prototype] is a function; both are
    truthy. *)
Definition configured (key : string) : bool :=
  truthy (lookupMember resourceConfig key).

(** [s.split('/')]. *)
Fixpoint split (sep : Ascii.ascii) (s : string) : list string :=
  match s with
  | EmptyString => [EmptyString]
  | String ch s' =>
      if Ascii.eqb ch sep then EmptyString :: split sep s'
      else match split sep s' with
           | part :: parts => String ch part :: parts
           | [] => [String ch EmptyString]
           end
  end.

(** [parts[parts.length - k]]: [undefined] when the index is negative. *)
Definition fromEnd (parts : list string) (k : nat) : option string :=
  if length parts <? k then None else parts !! (length parts - k).

(** A property key made from a value that may be [undefined]. *)
Definition toKey (v : option string) : string := default "undefined" v.

(** [extractIdFromUrl]. *)
Definition extractIdFromUrl (url : string) : option string :=
  fromEnd (split "/"%char url) 1.

(** [extractTypeFromUrl]: [null] is [None]. *)
Definition extractTypeFromUrl (url : string) : option string :=
  let parts := split "/"%char url in
  let type := fromEnd parts 2 in
  if configured (toKey type) then Some (toKey type) else None.

(** What one render of [RelatedItem] does: whether its query is enabled
    ([enabled: !!url && !!type]), the requests its query function issues when
    the query runs, and whether a card is rendered ([if (!type) return null]). *)
Record RelatedItemView : Type := mkRelatedItemView {
  queryEnabled : bool;
  fetches : list Api.Request;
  rendersCard : bool
}.

Definition RelatedItem (url : string) : RelatedItemView :=
  let type := extractTypeFromUrl url in
  let enabled := negb (String.eqb url "") && bool_decide (is_Some type) in
  mkRelatedItemView
    enabled
    (if enabled then [Api.urlRequest url] else [])
    (bool_decide (is_Some type)).

(** [validType]: the route parameter when [resourceConfig[type]] is truthy,
    else ['people']. *)
Definition validType (type : string) : string :=
  if configured type then type else "people".

(** The requests of the detail query: [useParams] defaults [type] to
    ['people'], the query is enabled by [!!id] and calls
    [getResourceById(validType, id || '')]. *)
Definition detailFetches (type id : option string) : list Api.Request :=
  let type := default "people" type in
  match id with
  | Some i => if String.eqb i "" then [] else [Api.detailRequest (validType type) i]
  | None => []
  end.

(** An entry of the favorites list and of the recently viewed list: the
    interfaces [FavoriteItem] and [RecentlyViewedItem] declare the same four
    fields. *)
Record StoredItem : Type := mkStoredItem {
  id : string;
  type : string;
  name : JsVal;
  timestamp : Z
}.
Definition FavoriteItem : Type := StoredItem.
Definition RecentlyViewedItem : Type := StoredItem.

(** The resource's [properties] once loaded, [null] before. *)
Definition Properties : Type := option (gmap string JsVal).

(** [getResourceName]: a film has a [title], the others a [name]. *)
Definition getResourceName (props : Properties) : JsVal :=
  match props with
  | None => JStr "Unknown"
  | Some fields =>
      match fields !! "title" with
      | Some title => title
      | None =>
          match fields !! "name" with
          | Some nm => nm
          | None => JStr "Unknown"
          end
      end
  end.

(** [item.id === id && item.type === validType], where the route's [id] may
    be [undefined]. *)
Definition sameKey (rid : option string) (vtype : string) (item : StoredItem) : bool :=
  match rid with
  | Some i => String.eqb (id item) i
  | None => false
  end && String.eqb (type item) vtype.

(** [isFavorite]: [favorites.some(...)]. *)
Definition isFavorite (favorites : list FavoriteItem) (rid : option string)
    (vtype : string) : bool :=
  existsb (sameKey rid vtype) favorites.

(** The updater passed to [setFavorites]; [isFav] is the memoised
    [isFavorite] of the render in which the handler was created. *)
Definition toggleFavoriteUpdater (isFav : bool) (rid : option string)
    (vtype : string) (nm : JsVal) (now : Z) (prev : list FavoriteItem)
  : list FavoriteItem :=
  if isFav then filter (λ item, negb (sameKey rid vtype item)) prev
  else prev ++ [mkStoredItem (default "" rid) vtype nm now].

(** [toggleFavorite] on the committed favorites list: nothing happens until
    the resource has loaded. *)
Definition toggleFavorite (properties : Properties) (rid : option string)
    (vtype : string) (now : Z) (favorites : list FavoriteItem)
  : list FavoriteItem :=
  match properties with
  | None => favorites
  | Some _ =>
      toggleFavoriteUpdater (isFavorite favorites rid vtype) rid vtype
        (getResourceName properties) now favorites
  end.

(** The updater passed to [setRecentlyViewed]. *)
Definition recordViewUpdater (i vtype : string) (nm : JsVal) (now : Z)
    (prev : list RecentlyViewedItem) : list RecentlyViewedItem :=
  let filtered := filter (λ item, negb (sameKey (Some i) vtype item)) prev in
  take 10 (mkStoredItem i vtype nm now :: filtered).

(** The effect that records a view: it runs [if (id)], with the name
    [getResourceName(properties) || `${validType} ${id}`]. *)
Definition recordView (properties : Properties) (rid : option string)
    (vtype : string) (now : Z) (recentlyViewed : list RecentlyViewedItem)
  : list RecentlyViewedItem :=
  match rid with
  | None => recentlyViewed
  | Some i =>
      if String.eqb i "" then recentlyViewed
      else
        let nm := js_or (getResourceName properties) (JStr (vtype +:+ " " +:+ i)) in
        recordViewUpdater i vtype nm now recentlyViewed
  end.

(** Sample view state. *)
Definition lukeFields : gmap string JsVal :=
  list_to_map [("name", JStr "Luke Skywalker"); ("height", JStr "172")].
Definition lukeProperties : Properties := Some lukeFields.

Definition luke : StoredItem :=
  mkStoredItem "1" "people" (JStr "Luke Skywalker") 1000.
Definition tatooine : StoredItem :=
  mkStoredItem "1" "planets" (JStr "Tatooine") 2000.
Definition leia : StoredItem :=
  mkStoredItem "5" "people" (JStr "Leia Organa") 2500.

Definition sampleFavorites : list FavoriteItem := [luke; tatooine].

End ResourceDetail.

(** ** The detail page: what is rendered from the loaded resource *)

Module ResourceDetailView.
Import ResourceDetail.

(** The entries of the "Recently Viewed" panel:
    [recentlyViewed.filter(not the current one).slice(0, 5)]. *)
Definition panelItems (rid : option string) (vtype : string)
    (recentlyViewed : list RecentlyViewedItem) : list RecentlyViewedItem :=
  take 5 (filter (λ item, negb (sameKey rid vtype item)) recentlyViewed).

(** One row of the panel reads [resourceConfig[item.type].icon] and then
    [resourceConfig[item.type].label]; both reads throw when the entry is
    [undefined]. *)
Definition panelRow (item : RecentlyViewedItem) : Result (RecentlyViewedItem * JsVal) :=
  _ ← get (lookupMember resourceConfig (type item)) "icon";
  lbl ← get (lookupMember resourceConfig (type item)) "label";
  mret (item, lbl).

(** The panel: shown when [recentlyViewed.length > 1]. *)
Definition recentlyViewedPanel (rid : option string) (vtype : string)
    (recentlyViewed : list RecentlyViewedItem)
  : Result (option (list (RecentlyViewedItem * JsVal))) :=
  if 1 <? length recentlyViewed
  then rows ← mapR panelRow (panelItems rid vtype recentlyViewed); mret (Some rows)
  else mret None.

(** The key of a stored entry. *)
Definition keyOf (item : StoredItem) : string * string := (type item, id item).

(** [excludeProps] of [renderProperties]. *)
Definition excludeProps : list string :=
  [ "created"; "edited"; "url"; "films"; "species"; "vehicles"; "starships";
    "residents"; "people"; "pilots"; "characters"; "planets"; "homeworld" ].

(** [key.replace(/_/g, ' ')]: every occurrence. *)
Fixpoint replaceAll (from to : Ascii.ascii) (s : string) : string :=
  match s with
  | EmptyString => EmptyString
  | String ch s' =>
      String (if Ascii.eqb ch from then to else ch) (replaceAll from to s')
  end.

(** A card of the details grid: its React key, the label, whether it carries
    the "Primary" badge, and the raw value handed to [formatValue] (whose
    number and date formatting is not modelled). *)
Record PropertyCard : Type := mkPropertyCard {
  card_key : string;
  card_label : string;
  card_primary : bool;
  card_value : JsVal
}.

(** [renderProperties] on [Object.entries(properties)]. *)
Definition renderProperties (entries : list (string * JsVal)) : list PropertyCard :=
  (λ kv, mkPropertyCard kv.1 (replaceAll "_" " " kv.1)
           (String.eqb kv.1 "name" || String.eqb kv.1 "title") kv.2)
  <$> filter (λ kv, kv.1 ∉ excludeProps) entries.

(** The relations tested by [renderRelatedTabs], in the order of its [if]s;
    [homeworld] comes last and has its own test. *)
Definition relationTabs : list string :=
  [ "films"; "species"; "vehicles"; "starships"; "residents"; "people";
    "pilots"; "characters"; "planets" ].

(** ['k' in properties]. *)
Definition inProperties (fields : gmap string JsVal) (k : string) : bool :=
  bool_decide (is_Some (fields !! k)) || inherited k.

(** ['k' in properties && Array.isArray(properties.k) &&
    properties.k.length > 0]: the array when the test passes. *)
Definition arrayRelation (fields : gmap string JsVal) (k : string)
  : option (list JsVal) :=
  if inProperties fields k then
    match lookupMember fields k with
    | JArr (u :: urls) => Some (u :: urls)
    | _ => None
    end
  else None.

(** A tab: its value and, for the array relations, the count in its label. *)
Record Tab : Type := mkTab { tab_value : string; tab_count : option nat }.

(** [renderRelatedTabs]: [null] until the resource has loaded. *)
Definition renderRelatedTabs (properties : Properties) : option (list Tab) :=
  match properties with
  | None => None
  | Some fields =>
      Some (omap (λ k, (λ urls : list JsVal, mkTab k (Some (length urls)))
                         <$> arrayRelation fields k) relationTabs
            ++ (if inProperties fields "homeworld"
                   && truthy (lookupMember fields "homeworld")
                then [mkTab "homeworld" None] else []))
  end.

(** What a tab panel shows: nothing, one [RelatedItem] per URL, or the text
    "No related ... found." *)
Inductive Content : Type :=
| NoContent
| RelatedItems (urls : list JsVal)
| NoRelated (tab : string).

(** [renderRelatedContent] for the active tab ([null] is [None]). *)
Definition renderRelatedContent (properties : Properties)
    (activeTab : option string) : Content :=
  match properties, activeTab with
  | Some fields, Some tab =>
      if String.eqb tab "" || String.eqb tab "details" then NoContent
      else if String.eqb tab "homeworld" && inProperties fields "homeworld"
      then RelatedItems [lookupMember fields "homeworld"]
      else match lookupMember fields tab with
           | JArr (u :: urls) => RelatedItems (u :: urls)
           | _ => NoRelated tab
           end
  | _, _ => NoContent
  end.

(** Whether the string holds the character. *)
Fixpoint contains (ch : Ascii.ascii) (s : string) : bool :=
  match s with
  | EmptyString => false
  | String c s' => Ascii.eqb c ch || contains ch s'
  end.

(** Sample resource: a person with two films and a homeworld. *)
Definition lukeEntries : list (string * JsVal) :=
  [ ("name", JStr "Luke Skywalker"); ("birth_year", JStr "19BBY");
    ("homeworld", JStr "https://swapi.tech/api/planets/1");
    ("films", JArr [JStr "https://swapi.tech/api/films/1";
                    JStr "https://swapi.tech/api/films/2"]);
    ("vehicles", JArr []);
    ("url", JStr "https://swapi.tech/api/people/1") ].

End ResourceDetailView.

(** ** The session: [store/auth.store], [ProtectedRoute] and the login page *)

Module Auth.

Record User : Type := mkUser {
  user_id : string;
  username : string;
  user_name : string;
  email : string
}.

Record AuthState : Type := mkAuthState {
  user : option User;
  isAuthenticated : bool;
  isLoading : bool;
  error : option string
}.

Definition MOCK_USER : User := mkUser "1" "demo" "Demo User" "demo@example.com".

(** The state the store is created with. *)
Definition initialState : AuthState := mkAuthState None false false None.

(** [login] up to its [await]: [set({ isLoading: true, error: null })]. *)
Definition loginStart (s : AuthState) : AuthState :=
  mkAuthState (user s) (isAuthenticated s) true None.

(** [login] after the delay: the mock validation and the [set] of its
    branch.  (The [catch] branch is unreachable: nothing in the [try] block
    throws.) *)
Definition loginFinish (uname password : string) (s : AuthState) : AuthState :=
  if String.eqb uname "demo" && String.eqb password "password"
  then mkAuthState (Some MOCK_USER) true false (error s)
  else mkAuthState (user s) (isAuthenticated s) false
         (Some "Invalid username or password").

(** A [login] that runs without another action in between. *)
Definition login (uname password : string) (s : AuthState) : AuthState :=
  loginFinish uname password (loginStart s).

(** [logout]: [set({ user: null, isAuthenticated: false })]. *)
Definition logout (s : AuthState) : AuthState :=
  mkAuthState None false (isLoading s) (error s).

(** [clearError]: [set({ error: null })]. *)
Definition clearError (s : AuthState) : AuthState :=
  mkAuthState (user s) (isAuthenticated s) (isLoading s) None.

(** [partialize]: what is written to storage. *)
Definition partialize (s : AuthState) : option User * bool :=
  (user s, isAuthenticated s).

(** The store's transitions; the two halves of a [login] are separate steps,
    so that other actions can fall between them. *)
Inductive Action : Type :=
| LoginStart
| LoginFinish (uname password : string)
| Logout
| ClearError.

Definition step (a : Action) (s : AuthState) : AuthState :=
  match a with
  | LoginStart => loginStart s
  | LoginFinish u p => loginFinish u p s
  | Logout => logout s
  | ClearError => clearError s
  end.

(** The state after a sequence of actions, the first action first. *)
Definition run (actions : list Action) (s : AuthState) : AuthState :=
  foldl (λ st a, step a st) s actions.

(** The two shapes a session can have: signed in as the mock user, or signed
    out without a user. *)
Definition consistent (s : AuthState) : Prop :=
  (isAuthenticated s = true ∧ user s = Some MOCK_USER) ∨
  (isAuthenticated s = false ∧ user s = None).

(** What a guarded route element does. *)
Inductive Outcome : Type :=
| RenderChildren
| Navigate (to : string) (from : option string).

(** [ProtectedRoute] at the location [pathname]. *)
Definition ProtectedRoute (s : AuthState) (pathname : string) : Outcome :=
  if negb (isAuthenticated s) then Navigate "/login" (Some pathname)
  else RenderChildren.

(** The login page's [from]: [state?.from?.pathname || '/dashboard'], where
    [from] is the path carried by the navigation state, if any. *)
Definition loginFrom (from : option string) : string :=
  match from with
  | Some pathname => if String.eqb pathname "" then "/dashboard" else pathname
  | None => "/dashboard"
  end.

(** The login page's effect: [if (isAuthenticated) navigate(from, ...)]. *)
Definition loginRedirect (s : AuthState) (from : option string) : option string :=
  if isAuthenticated s then Some (loginFrom from) else None.

(** [handleGetStarted] of the landing page and [handleGoHome] of the error
    pages: the path navigated to. *)
Definition handleGetStarted (s : AuthState) : string :=
  if isAuthenticated s then "/dashboard" else "/login".
Definition handleGoHome (s : AuthState) : string :=
  if isAuthenticated s then "/dashboard" else "/".

End Auth.

(** * Properties *)

Section ListNormalisation.
Import ResourceList.

Lemma get_total (v : JsVal) (k : string) :
  nullish v = false → ∃ w, get v k = Ok w.
Proof.
  destruct v; simpl; try discriminate; intros _; eauto;
    destruct (String.eqb k "length"); eauto.
Qed.

Lemma isSearchResponse_inv (data : JsVal) :
  isSearchResponse data = Ok true →
  truthy data = true ∧ ∃ rs, get data "result" = Ok (JArr rs).
Proof.
  unfold isSearchResponse. destruct (truthy data) eqn:Ht; [|discriminate].
  destruct (has_in "result" data) as [[|]|e] eqn:Hin; simpl; try discriminate.
  destruct (get data "result") as [r|e] eqn:Hr; simpl; [|discriminate].
  destruct r; simpl; try discriminate. eauto.
Qed.

Lemma get_Ok_nullish (v : JsVal) (k : string) (w : JsVal) :
  get v k = Ok w → nullish v = false.
Proof. destruct v; simpl; congruence. Qed.

Lemma nameTitleUnknown_truthy (n t : JsVal) :
  truthy (nameTitleUnknown n t) = true.
Proof.
  unfold nameTitleUnknown.
  destruct (truthy n) eqn:Hn; [done|]. destruct (truthy t) eqn:Ht; done.
Qed.

Lemma truthy_not_empty (v : JsVal) :
  truthy v = true → v ≠ JStr "" ∧ v ≠ JUndefined ∧ v ≠ JNull.
Proof. intros Hv. repeat split; intros ->; discriminate. Qed.

(** One search result item: the callback returns, and the row's name follows
    the fallback chain. *)
Lemma toListItem_name (item : JsVal) :
  hasProperties item →
  ∃ out props n t,
    toListItem item = Ok out ∧
    get item "properties" = Ok props ∧
    get props "name" = Ok n ∧ get props "title" = Ok t ∧
    displayName out = nameTitleUnknown n t.
Proof.
  intros (props & Hprops & Hnn).
  pose proof (get_Ok_nullish _ _ _ Hprops) as Hitem.
  destruct (get_total item "uid" Hitem) as [uid Huid].
  destruct (get_total props "name" Hnn) as [n Hn].
  destruct (get_total props "title" Hnn) as [t Ht].
  destruct (get_total props "url" Hnn) as [u Hu].
  unfold toListItem. rewrite Hprops; simpl. rewrite Huid; simpl.
  rewrite Hn; simpl. unfold nameTitleUnknown, js_or.
  assert (Hname : ∀ uid' nm url' : JsVal,
    displayName (JObj (<["uid" := uid']> (<["name" := nm]> (<["url" := url']> ∅)))) = nm).
  { intros. simpl. unfold lookupMember. rewrite lookup_insert_ne; [|discriminate].
    by rewrite lookup_insert_eq. }
  destruct (truthy n) eqn:Htn; simpl.
  - rewrite Hu; simpl. eexists _, props, n, t.
    split_and!; try done. by rewrite Hname, ?Htn.
  - rewrite Ht; simpl. rewrite Hu; simpl. eexists _, props, n, t.
    split_and!; try done. rewrite Hname, ?Htn. by destruct (truthy t).
Qed.

Lemma mapR_toListItem (rs : list JsVal) :
  Forall hasProperties rs →
  ∃ items, mapR toListItem rs = Ok items ∧ Forall2 rowOf rs items.
Proof.
  induction 1 as [|item rs Hitem _ IH]; simpl.
  - exists []. split; [done | constructor].
  - destruct (toListItem_name item Hitem) as (out & props & n & t & -> & Hrow).
    destruct IH as (items & -> & Hall). simpl.
    exists (out :: items). split; [done|].
    constructor; [|done]. by exists props, n, t.
Qed.

Lemma mapR_length {A B} (f : A → Result B) (xs : list A) (ys : list B) :
  mapR f xs = Ok ys → length ys = length xs.
Proof.
  revert ys. induction xs as [|x xs IH]; intros ys; simpl.
  - by intros [= <-].
  - destruct (f x) as [y|e]; simpl; [|discriminate].
    destruct (mapR f xs) as [ys'|e]; simpl; [|discriminate].
    intros [= <-]. simpl. f_equal. by apply IH.
Qed.

Lemma getItems_search (data : JsVal) (rs : list JsVal) :
  isSearchResponse data = Ok true →
  get data "result" = Ok (JArr rs) →
  getItems data = mapR toListItem rs.
Proof.
  intros Hs Hr. destruct (isSearchResponse_inv data Hs) as [Ht _].
  unfold getItems. rewrite Ht, Hs; simpl. by rewrite Hr.
Qed.

(** C1: on a search-shaped response the rows returned by [getItems] take
    their display name from [properties.name], else from [properties.title]
    (when the name is absent or falsy), else the literal "Unknown"; so no
    row has an empty display name. *)
Theorem getItems_search_displayName (data : JsVal) (rs : list JsVal) :
  isSearchResponse data = Ok true →
  get data "result" = Ok (JArr rs) →
  Forall hasProperties rs →
  ∃ items,
    getItems data = Ok items ∧
    Forall2 rowOf rs items ∧
    Forall (λ out, truthy (displayName out) = true ∧
                   displayName out ≠ JStr "" ∧
                   displayName out ≠ JUndefined) items.
Proof.
  intros Hs Hr Hwf.
  destruct (mapR_toListItem rs Hwf) as (items & Hmap & Hrows).
  exists items. split; [by rewrite (getItems_search data rs)|].
  split; [done|].
  clear Hmap Hwf Hr. induction Hrows as [|item out rs' items' Hrow _ IH].
  - constructor.
  - constructor; [|by apply IH].
    destruct Hrow as (props & n & t & _ & _ & _ & ->).
    pose proof (nameTitleUnknown_truthy n t) as Htr.
    destruct (truthy_not_empty _ Htr) as (? & ? & _). done.
Qed.

Lemma getItems_search_displayName_witness :
  ∃ items,
    getItems sampleSearch = Ok items ∧
    Forall2 rowOf sampleSearchItems items ∧
    Forall (λ out, truthy (displayName out) = true ∧
                   displayName out ≠ JStr "" ∧
                   displayName out ≠ JUndefined) items.
Proof.
  apply (getItems_search_displayName sampleSearch sampleSearchItems).
  - vm_compute. reflexivity.
  - vm_compute. reflexivity.
  - repeat constructor; eexists; (split; [vm_compute; reflexivity | reflexivity]).
Defined.

(** The three fallbacks on the sample: a name, a title without a name, and an
    empty name without a title. *)
Example getItems_sample_names :
  (λ r, match r with Ok items => Some (map displayName items) | Throw _ => None end)
    (getItems sampleSearch)
  = Some [JStr "Luke Skywalker"; JStr "A New Hope"; JStr "Unknown"].
Proof. vm_compute. reflexivity. Qed.

(** C2: on a search-shaped response the page count is 1 whatever the number
    of results, and the record count is the length of the array of rows. *)
Theorem search_totals (data : JsVal) :
  isSearchResponse data = Ok true →
  ∃ rs,
    get data "result" = Ok (JArr rs) ∧
    getTotalPages data = Ok (JNum 1) ∧
    getTotalRecords data = Ok (JNum (Z.of_nat (length rs))) ∧
    (∀ items, getItems data = Ok items → length items = length rs) ∧
    (Forall hasProperties rs →
     ∃ items, getItems data = Ok items ∧
              getTotalRecords data = Ok (JNum (Z.of_nat (length items)))).
Proof.
  intros Hs. destruct (isSearchResponse_inv data Hs) as (Ht & rs & Hr).
  exists rs. split; [done|].
  assert (Hpages : getTotalPages data = Ok (JNum 1)).
  { unfold getTotalPages. by rewrite Ht, Hs. }
  assert (Hrec : getTotalRecords data = Ok (JNum (Z.of_nat (length rs)))).
  { unfold getTotalRecords. rewrite Ht, Hs; simpl. by rewrite Hr. }
  assert (Hlen : ∀ items, getItems data = Ok items → length items = length rs).
  { intros items. rewrite (getItems_search data rs Hs Hr). apply mapR_length. }
  split_and!; try done.
  intros Hwf. destruct (mapR_toListItem rs Hwf) as (items & Hmap & _).
  exists items. rewrite (getItems_search data rs Hs Hr). split; [done|].
  rewrite Hrec. by rewrite (mapR_length _ _ _ Hmap).
Qed.

Lemma search_totals_witness :
  getTotalPages sampleSearch = Ok (JNum 1) ∧
  getTotalRecords sampleSearch = Ok (JNum 3).
Proof.
  destruct (search_totals sampleSearch) as (rs & Hr & Hp & Hrec & _).
  - vm_compute. reflexivity.
  - split; [exact Hp|].
    assert (Hsample : get sampleSearch "result" = Ok (JArr sampleSearchItems))
      by (vm_compute; reflexivity).
    rewrite Hsample in Hr. injection Hr as <-. exact Hrec.
Defined.

(** C7: on a list-shaped response (a [results] array and no [result] array)
    the page count and the record count are the envelope's [total_pages] and
    [total_records] fields, read as they are. *)
Theorem paginated_totals (data : JsVal) :
  isSearchResponse data = Ok false →
  isPaginatedResponse data = Ok true →
  ∃ tp tr,
    get data "total_pages" = Ok tp ∧
    get data "total_records" = Ok tr ∧
    getTotalPages data = Ok tp ∧
    getTotalRecords data = Ok tr.
Proof.
  intros Hs Hp.
  assert (Ht : truthy data = true).
  { unfold isPaginatedResponse in Hp. by destruct (truthy data). }
  assert (Hnn : nullish data = false) by (by destruct data).
  destruct (get_total data "total_pages" Hnn) as [tp Htp].
  destruct (get_total data "total_records" Hnn) as [tr Htr].
  exists tp, tr. unfold getTotalPages, getTotalRecords.
  rewrite Ht, Hs, Hp; simpl. by rewrite Htp, Htr.
Qed.

Lemma paginated_totals_witness :
  ∃ tp tr,
    get samplePage "total_pages" = Ok tp ∧
    get samplePage "total_records" = Ok tr ∧
    getTotalPages samplePage = Ok tp ∧
    getTotalRecords samplePage = Ok tr.
Proof.
  apply (paginated_totals samplePage); vm_compute; reflexivity.
Defined.

Example paginated_totals_sample :
  getTotalPages samplePage = Ok (JNum 9) ∧
  getTotalRecords samplePage = Ok (JNum 82).
Proof. split; vm_compute; reflexivity. Qed.

End ListNormalisation.

Section ViewState.
Import ResourceList ResourceDetail.

(** C3 as stated fails: three toggles from ASCENDING end in ASCENDING, not
    in UNSORTED. *)
Lemma handleNameSort_thrice_from_ascending :
  handleNameSort (handleNameSort (handleNameSort ASCENDING)) ≠ UNSORTED.
Proof. discriminate. Qed.

(** C3 (amended): the toggle steps UNSORTED to ASCENDING to DESCENDING to
    UNSORTED; three toggles are the identity on the three states, so from
    UNSORTED three toggles return to UNSORTED. *)
Theorem handleNameSort_cycle :
  handleNameSort UNSORTED = ASCENDING ∧
  handleNameSort ASCENDING = DESCENDING ∧
  handleNameSort DESCENDING = UNSORTED ∧
  (∀ s : SortState, handleNameSort (handleNameSort (handleNameSort s)) = s) ∧
  Nat.iter 3 handleNameSort UNSORTED = UNSORTED.
Proof. split_and!; try done. by intros [[|]|]. Qed.

(** The stored per-column variant steps the clicked column through the same
    cycle once the column is stored, and clears every other column. *)
Lemma handleColumnSort_same (columnKey : string) (prev : gmap string (option bool))
    (state : option bool) :
  prev !! columnKey = Some state →
  ResourceListColumns.handleColumnSort columnKey prev !! columnKey
    = Some (handleNameSort state).
Proof.
  intros Hstate. unfold ResourceListColumns.handleColumnSort. cbv zeta.
  rewrite Hstate.
  destruct state as [[|]|]; simpl; by rewrite lookup_insert_eq.
Qed.

Lemma handleColumnSort_other (columnKey other : string)
    (prev : gmap string (option bool)) :
  other ≠ columnKey →
  ResourceListColumns.handleColumnSort columnKey prev !! other
    = (λ _, None) <$> prev !! other.
Proof.
  intros Hne. unfold ResourceListColumns.handleColumnSort. cbv zeta.
  assert (Himap : map_imap (λ key value,
             Some (if decide (key = columnKey) then value else None)) prev !! other
           = (λ _, None) <$> prev !! other).
  { rewrite map_lookup_imap. destruct (prev !! other); simpl; [|done].
    by rewrite decide_False. }
  destruct (prev !! columnKey) as [[[|]|]|];
    by rewrite lookup_insert_ne.
Qed.

(** X7: Three clicks on a stored column bring its sort state back to what it
    was. *)
Lemma handleColumnSort_thrice (columnKey : string)
    (prev : gmap string (option bool)) (state : option bool) :
  prev !! columnKey = Some state →
  Nat.iter 3 (ResourceListColumns.handleColumnSort columnKey) prev !! columnKey
    = Some state.
Proof.
  intros Hstate.
  do 3 (apply handleColumnSort_same in Hstate).
  by destruct state as [[|]|].
Qed.

(** A column that is not stored yet (the ID column of the default
    configuration) is stored as unsorted by its first click. *)
Example handleColumnSort_uid_first_click :
  ResourceListColumns.handleColumnSort "uid" ResourceListColumns.defaultSortConfig
    !! "uid" = Some UNSORTED.
Proof. vm_compute. reflexivity. Qed.

(** *** Favorites *)

Local Ltac key_side H := rewrite ?H; simpl; tauto.

Lemma sameKey_new (i vtype : string) (nm : JsVal) (now : Z) :
  sameKey (Some i) vtype (mkStoredItem i vtype nm now) = true.
Proof. unfold sameKey; simpl. by rewrite !String.eqb_refl. Qed.

Lemma filter_absent (k : option string) (vtype : string) (l : list StoredItem) :
  existsb (sameKey k vtype) l = false →
  filter (λ item, negb (sameKey k vtype item)) l = l.
Proof.
  induction l as [|x l IH]; simpl; [done|].
  intros [Hx Hl]%orb_false_iff.
  rewrite filter_cons_True by key_side Hx. by rewrite IH.
Qed.

Lemma filter_removes (k : option string) (vtype : string) (l : list StoredItem) :
  existsb (sameKey k vtype) (filter (λ item, negb (sameKey k vtype item)) l) = false.
Proof.
  induction l as [|x l IH]; simpl; [done|].
  destruct (sameKey k vtype x) eqn:Hx.
  - by rewrite filter_cons_False by key_side Hx.
  - rewrite filter_cons_True by key_side Hx. simpl. by rewrite Hx, IH.
Qed.

Lemma existsb_app_new (i vtype : string) (nm : JsVal) (now : Z) (l : list StoredItem) :
  existsb (sameKey (Some i) vtype) (l ++ [mkStoredItem i vtype nm now]) = true.
Proof.
  rewrite existsb_app; simpl. rewrite sameKey_new. by rewrite orb_true_r.
Qed.

Lemma sameKey_iff (k : option string) (vtype : string) (item : StoredItem) :
  sameKey k vtype item = true ↔ k = Some (id item) ∧ vtype = type item.
Proof.
  unfold sameKey. destruct k as [i|]; simpl.
  - rewrite andb_true_iff, !String.eqb_eq. split.
    + by intros [-> ->].
    + by intros [[= ->] ->].
  - split; [discriminate|]. by intros [? _].
Qed.

Lemma toggleFavorite_present (fields : gmap string JsVal) (i vtype : string)
    (now : Z) (favorites : list FavoriteItem) :
  isFavorite favorites (Some i) vtype = true →
  toggleFavorite (Some fields) (Some i) vtype now favorites
    = filter (λ item, negb (sameKey (Some i) vtype item)) favorites.
Proof. intros Hfav. unfold toggleFavorite. by rewrite Hfav. Qed.

Lemma toggleFavorite_absent (fields : gmap string JsVal) (i vtype : string)
    (now : Z) (favorites : list FavoriteItem) :
  isFavorite favorites (Some i) vtype = false →
  toggleFavorite (Some fields) (Some i) vtype now favorites
    = favorites ++ [mkStoredItem i vtype (getResourceName (Some fields)) now].
Proof. intros Hfav. unfold toggleFavorite. by rewrite Hfav. Qed.

Lemma toggleFavorite_absent_twice (fields : gmap string JsVal) (i vtype : string)
    (now now' : Z) (favorites : list FavoriteItem) :
  isFavorite favorites (Some i) vtype = false →
  toggleFavorite (Some fields) (Some i) vtype now'
    (toggleFavorite (Some fields) (Some i) vtype now favorites) = favorites.
Proof.
  intros Hfav. rewrite (toggleFavorite_absent _ _ _ now) by done.
  rewrite toggleFavorite_present by apply existsb_app_new.
  rewrite filter_app, filter_absent by done.
  rewrite filter_cons_False by key_side sameKey_new.
  by rewrite filter_nil, app_nil_r.
Qed.

(** Removing one key leaves the membership of every other key as it was. *)
Lemma existsb_filter_other (k k' : option string) (t t' : string)
    (l : list StoredItem) :
  (k', t') ≠ (k, t) →
  existsb (sameKey k' t') (filter (λ item, negb (sameKey k t item)) l)
    = existsb (sameKey k' t') l.
Proof.
  intros Hne. induction l as [|x l IH]; simpl; [done|].
  destruct (sameKey k t x) eqn:Hx.
  - rewrite filter_cons_False by key_side Hx. rewrite IH.
    destruct (sameKey k' t' x) eqn:Hx'; [|done].
    apply sameKey_iff in Hx as [-> ->]. apply sameKey_iff in Hx' as [-> ->]. done.
  - rewrite filter_cons_True by key_side Hx. simpl. by rewrite IH.
Qed.

(** Whatever the starting list, two toggles of one key leave every key
    favorited exactly when it was before. *)
Lemma toggleFavorite_twice_membership (fields : gmap string JsVal)
    (i vtype : string) (now now' : Z) (favorites : list FavoriteItem)
    (k : option string) (t : string) :
  isFavorite
    (toggleFavorite (Some fields) (Some i) vtype now'
       (toggleFavorite (Some fields) (Some i) vtype now favorites)) k t
  = isFavorite favorites k t.
Proof.
  destruct (isFavorite favorites (Some i) vtype) eqn:Hfav.
  - rewrite (toggleFavorite_present _ _ _ now) by done.
    rewrite toggleFavorite_absent by apply filter_removes.
    unfold isFavorite. rewrite existsb_app. simpl. rewrite orb_false_r.
    destruct (decide ((k, t) = (Some i, vtype))) as [[= -> ->]|Hne].
    + rewrite sameKey_new, orb_true_r. by rewrite <- Hfav.
    + rewrite existsb_filter_other by done.
      destruct (sameKey k t _) eqn:Hnew; [|by rewrite orb_false_r].
      apply sameKey_iff in Hnew as [-> ->]. done.
  - by rewrite toggleFavorite_absent_twice.
Qed.

(** C4 as stated fails: when the entry is present, two toggles remove it and
    append a fresh one at the end, which changes the order and the time
    stamp. *)
Lemma toggleFavorite_twice_present_changes :
  toggleFavorite lukeProperties (Some "1") "people" 4000
    (toggleFavorite lukeProperties (Some "1") "people" 3000 sampleFavorites)
  ≠ sampleFavorites.
Proof. vm_compute. discriminate. Qed.

Example toggleFavorite_twice_present :
  toggleFavorite lukeProperties (Some "1") "people" 4000
    (toggleFavorite lukeProperties (Some "1") "people" 3000 sampleFavorites)
  = [tatooine; mkStoredItem "1" "people" (JStr "Luke Skywalker") 4000].
Proof. vm_compute. reflexivity. Qed.

(** C4 (amended): once the resource has loaded, [toggleFavorite] removes the
    entries with the key when one exists, and otherwise appends an entry with
    the resource's name and the current time; applied twice to a list that
    holds no entry with the key, it gives the list back. *)
Theorem toggleFavorite_spec (fields : gmap string JsVal) (i vtype : string)
    (favorites : list FavoriteItem) :
  let props : Properties := Some fields in
  (isFavorite favorites (Some i) vtype = true →
   ∀ now,
     toggleFavorite props (Some i) vtype now favorites
       = filter (λ item, negb (sameKey (Some i) vtype item)) favorites ∧
     isFavorite (toggleFavorite props (Some i) vtype now favorites) (Some i) vtype
       = false) ∧
  (isFavorite favorites (Some i) vtype = false →
   ∀ now,
     toggleFavorite props (Some i) vtype now favorites
       = favorites ++ [mkStoredItem i vtype (getResourceName props) now] ∧
     ∀ now',
       toggleFavorite props (Some i) vtype now'
         (toggleFavorite props (Some i) vtype now favorites) = favorites).
Proof.
  intros props. split; intros Hfav now.
  - unfold props. rewrite toggleFavorite_present by done.
    split; [done|]. apply filter_removes.
  - unfold props. split; [by apply toggleFavorite_absent|].
    intros now'. by apply toggleFavorite_absent_twice.
Qed.

Lemma toggleFavorite_spec_witness :
  toggleFavorite lukeProperties (Some "5") "people" 4000
    (toggleFavorite lukeProperties (Some "5") "people" 3000 sampleFavorites)
  = sampleFavorites ∧
  toggleFavorite lukeProperties (Some "1") "people" 3000 sampleFavorites
  = [tatooine].
Proof.
  destruct (toggleFavorite_spec lukeFields "5" "people" sampleFavorites) as [_ Habsent].
  destruct (toggleFavorite_spec lukeFields "1" "people" sampleFavorites) as [Hpresent _].
  split.
  - apply (Habsent eq_refl 3000%Z).
  - destruct (Hpresent eq_refl 3000%Z) as [-> _]. reflexivity.
Defined.

(** *** Recently viewed *)

Lemma filter_sameKey_absent (k : option string) (vtype : string) (l : list StoredItem) :
  existsb (sameKey k vtype) l = false →
  filter (λ item, sameKey k vtype item) l = [].
Proof.
  induction l as [|x l IH]; simpl; [done|].
  intros [Hx Hl]%orb_false_iff.
  rewrite filter_cons_False by key_side Hx. by apply IH.
Qed.

Lemma existsb_take_false {A} (f : A → bool) (n : nat) (l : list A) :
  existsb f l = false → existsb f (take n l) = false.
Proof.
  revert n. induction l as [|x l IH]; intros [|n]; simpl; try done.
  intros [-> Hl]%orb_false_iff. simpl. by apply IH.
Qed.

(** C5: for a route with an id, [recordView] drops the entries with the
    viewed key, puts a new entry with the current time in front and keeps the
    first 10 entries; the key then occurs once, at the front, the other
    entries keep their order, and the list has at most 10 entries. *)
Theorem recordView_spec (properties : Properties) (i vtype : string) (now : Z)
    (recentlyViewed : list RecentlyViewedItem) :
  i ≠ "" →
  let result := recordView properties (Some i) vtype now recentlyViewed in
  let others := filter (λ item, negb (sameKey (Some i) vtype item)) recentlyViewed in
  ∃ entry,
    id entry = i ∧ type entry = vtype ∧ timestamp entry = now ∧
    result = take 10 (entry :: others) ∧
    result = entry :: take 9 others ∧
    filter (λ item, sameKey (Some i) vtype item) result = [entry] ∧
    length result ≤ 10.
Proof.
  intros Hi result others.
  assert (Heq : String.eqb i "" = false) by (by apply String.eqb_neq).
  set (nm := js_or (getResourceName properties) (JStr (vtype +:+ " " +:+ i))).
  exists (mkStoredItem i vtype nm now).
  assert (Hres : result = take 10 (mkStoredItem i vtype nm now :: others)).
  { unfold result, recordView. by rewrite Heq. }
  split_and!; try done.
  - rewrite Hres. simpl.
    rewrite filter_cons_True by key_side sameKey_new.
    f_equal. apply filter_sameKey_absent, existsb_take_false, filter_removes.
  - rewrite Hres, length_take. lia.
Qed.

Lemma recordView_spec_witness :
  ∃ entry,
    id entry = "1" ∧ type entry = "people" ∧ timestamp entry = 5000%Z ∧
    recordView lukeProperties (Some "1") "people" 5000 [tatooine; luke; leia]
      = take 10 (entry :: [tatooine; leia]) ∧
    recordView lukeProperties (Some "1") "people" 5000 [tatooine; luke; leia]
      = entry :: take 9 [tatooine; leia] ∧
    filter (λ item, sameKey (Some "1") "people" item)
      (recordView lukeProperties (Some "1") "people" 5000 [tatooine; luke; leia])
      = [entry] ∧
    length (recordView lukeProperties (Some "1") "people" 5000 [tatooine; luke; leia]) ≤ 10.
Proof.
  apply (recordView_spec lukeProperties "1" "people" 5000 [tatooine; luke; leia]).
  discriminate.
Defined.

Example recordView_moves_to_front :
  recordView lukeProperties (Some "1") "people" 5000 [tatooine; luke; leia]
  = [mkStoredItem "1" "people" (JStr "Luke Skywalker") 5000; tatooine; leia].
Proof. vm_compute. reflexivity. Qed.

End ViewState.

Section CatalogClient.
Import Api.

Lemma getResources_run (transport : Request → Result JsVal) (type : string)
    (page : option Z) (search : option string) (c : Console) :
  getResources transport type page search c =
  match transport (listRequest type page search) with
  | Ok data => (Ok data, c)
  | Throw e => (Throw e, c ++ [("Error fetching " +:+ type +:+ ":", e)])
  end.
Proof.
  unfold getResources, tryCatch, bind, await_get, ret, throw, consoleError.
  destruct (searchGiven search); by destruct (transport _).
Qed.

Lemma getResourceById_run (transport : Request → Result JsVal) (type rid : string)
    (c : Console) :
  getResourceById transport type rid c =
  match transport (detailRequest type rid) with
  | Ok data => (Ok data, c)
  | Throw e =>
      (Throw e, c ++ [("Error fetching " +:+ type +:+ " with ID " +:+ rid +:+ ":", e)])
  end.
Proof.
  unfold getResourceById, tryCatch, bind, await_get, ret, throw, consoleError.
  by destruct (transport _).
Qed.

Lemma getResourceByUrl_run (transport : Request → Result JsVal) (url : string)
    (c : Console) :
  getResourceByUrl transport url c =
  match transport (urlRequest url) with
  | Ok data => (Ok data, c)
  | Throw e => (Throw e, c ++ [("Error fetching resource at " +:+ url +:+ ":", e)])
  end.
Proof.
  unfold getResourceByUrl, tryCatch, bind, await_get, ret, throw, consoleError.
  by destruct (transport _).
Qed.

(** C9: when the HTTP call of [getResources], [getResourceById] or
    [getResourceByUrl] fails with an error, the operation logs it and throws
    that same error to its caller; it returns no value in its place. *)
Theorem client_errors_propagate (transport : Request → Result JsVal) (e : Exn)
    (c : Console) :
  (∀ type page search,
     transport (listRequest type page search) = Throw e →
     getResources transport type page search c
       = (Throw e, c ++ [("Error fetching " +:+ type +:+ ":", e)])) ∧
  (∀ type rid,
     transport (detailRequest type rid) = Throw e →
     getResourceById transport type rid c
       = (Throw e, c ++ [("Error fetching " +:+ type +:+ " with ID " +:+ rid +:+ ":", e)])) ∧
  (∀ url,
     transport (urlRequest url) = Throw e →
     getResourceByUrl transport url c
       = (Throw e, c ++ [("Error fetching resource at " +:+ url +:+ ":", e)])).
Proof.
  split_and!.
  - intros type page search Hfail. by rewrite getResources_run, Hfail.
  - intros type rid Hfail. by rewrite getResourceById_run, Hfail.
  - intros url Hfail. by rewrite getResourceByUrl_run, Hfail.
Qed.

Lemma client_errors_propagate_witness :
  let e := HttpError (Some 404%Z) "Request failed with status code 404" in
  fst (getResources notFound "people" (Some 2%Z) None []) = Throw e ∧
  fst (getResourceById notFound "people" "999" []) = Throw e ∧
  fst (getResourceByUrl notFound "https://swapi.tech/api/planets/1" []) = Throw e.
Proof.
  intros e.
  destruct (client_errors_propagate notFound e []) as (Hlist & Hid & Hurl).
  split_and!.
  - by rewrite (Hlist "people" (Some 2%Z) None eq_refl).
  - by rewrite (Hid "people" "999" eq_refl).
  - by rewrite (Hurl "https://swapi.tech/api/planets/1" eq_refl).
Defined.

(** The requests of the list page: a search term adds the [name] parameter,
    an empty one does not. *)
Example listRequest_search :
  listRequest "people" None (Some "Luke")
  = mkRequest "/people" [("page", JNum 1); ("name", JStr "Luke")].
Proof. reflexivity. Qed.

Example listRequest_page :
  listRequest "people" (Some 2%Z) (Some "")
  = mkRequest "/people" [("page", JNum 2)].
Proof. reflexivity. Qed.

Example urlRequest_strips_base :
  urlRequest "https://swapi.tech/api/planets/1" = mkRequest "/planets/1" [].
Proof. vm_compute. reflexivity. Qed.

(** The success path hands the response body over unchanged and logs
    nothing. *)
Lemma client_success (transport : Request → Result JsVal) (data : JsVal) (c : Console) :
  (∀ type page search,
     transport (listRequest type page search) = Ok data →
     getResources transport type page search c = (Ok data, c)) ∧
  (∀ type rid,
     transport (detailRequest type rid) = Ok data →
     getResourceById transport type rid c = (Ok data, c)).
Proof.
  split.
  - intros type page search Hok. by rewrite getResources_run, Hok.
  - intros type rid Hok. by rewrite getResourceById_run, Hok.
Qed.

End CatalogClient.

Section TypeValidation.
Import Api ResourceDetail.

Lemma resourceConfig_own (key : string) (cfg : JsVal) :
  resourceConfig !! key = Some cfg → key ∈ resourceTypes ∧ truthy cfg = true.
Proof.
  unfold resourceConfig, resourceTypes. intros Hcfg.
  apply elem_of_list_to_map_2 in Hcfg.
  repeat (apply elem_of_cons in Hcfg as [[= -> ->]|Hcfg]; [split; [set_solver|done]|]).
  by apply elem_of_nil in Hcfg.
Qed.

Lemma resourceConfig_known (key : string) :
  key ∈ resourceTypes → is_Some (resourceConfig !! key).
Proof.
  unfold resourceConfig, resourceTypes. intros Hkey.
  repeat (apply elem_of_cons in Hkey as [->|Hkey]; [by eexists|]).
  by apply elem_of_nil in Hkey.
Qed.

(** The truthiness test accepts the six types and the inherited names, and
    nothing else. *)
Lemma configured_iff (key : string) :
  configured key = true ↔
  key ∈ resourceTypes ∨ key ∈ objectPrototypeKeys.
Proof.
  unfold configured, lookupMember.
  destruct (resourceConfig !! key) as [cfg|] eqn:Hcfg.
  - destruct (resourceConfig_own key cfg Hcfg) as [Hin Htr]. by split; [left|].
  - assert (Hno : key ∉ resourceTypes).
    { intros [cfg Hin]%resourceConfig_known. congruence. }
    unfold fromPrototype, inherited. case_bool_decide as Hinh; simpl; split; try done.
    + by right.
    + intros [?|?]; done.
Qed.

(** A type segment that names no own entry and no inherited member is
    rejected: [extractTypeFromUrl] gives [null], the query is disabled and
    nothing is rendered. *)
Lemma relatedItem_unknown_segment (url : string) :
  let segment := toKey (fromEnd (split "/" url) 2) in
  segment ∉ resourceTypes → segment ∉ objectPrototypeKeys →
  extractTypeFromUrl url = None ∧
  fetches (RelatedItem url) = [] ∧
  rendersCard (RelatedItem url) = false.
Proof.
  intros segment Hown Hinh.
  assert (Hnull : extractTypeFromUrl url = None).
  { unfold extractTypeFromUrl. fold segment.
    destruct (configured segment) eqn:Hm; [|done].
    apply configured_iff in Hm as [?|?]; done. }
  unfold RelatedItem. rewrite Hnull. simpl.
  by rewrite andb_false_r.
Qed.

(** C6 fails on a segment that names a member inherited from
    [Object.prototype]: the segment [constructor] is none of the six types,
    yet [extractTypeFromUrl] returns it, the query is enabled and the request
    [/constructor/1] is issued. *)
Theorem relatedItem_inherited_segment :
  let url := "https://swapi.tech/api/constructor/1" in
  fromEnd (split "/" url) 2 = Some "constructor" ∧
  ("constructor" ∉ resourceTypes) ∧
  extractTypeFromUrl url = Some "constructor" ∧
  RelatedItem url = mkRelatedItemView true [mkRequest "/constructor/1" []] true.
Proof.
  split_and!; try (vm_compute; reflexivity).
  apply (bool_decide_eq_false_1 _). vm_compute. reflexivity.
Qed.

Lemma validType_known (type : string) :
  type ∈ resourceTypes → validType type = type.
Proof.
  intros Hin. unfold validType.
  destruct (configured type) eqn:Hm; [done|].
  assert (configured type = true) by (apply configured_iff; by left).
  congruence.
Qed.

(** A route type that names no own entry and no inherited member falls back
    to [people], and the detail query asks for [/people/{id}]. *)
Lemma validType_unknown (type rid : string) :
  type ∉ resourceTypes → type ∉ objectPrototypeKeys → rid ≠ "" →
  validType type = "people" ∧
  detailFetches (Some type) (Some rid) = [mkRequest ("/people/" +:+ rid) []].
Proof.
  intros Hown Hinh Hid.
  assert (Hvt : validType type = "people").
  { unfold validType. destruct (configured type) eqn:Hm; [|done].
    apply configured_iff in Hm as [?|?]; done. }
  split; [done|]. unfold detailFetches. simpl. rewrite Hvt.
  by apply String.eqb_neq in Hid as ->.
Qed.

(** C10 fails on a route type that names a member inherited from
    [Object.prototype]: [constructor] is none of the six types, yet it is
    kept as [validType] and the detail query asks for [/constructor/1], not
    for [/people/1]. *)
Theorem validType_inherited_name :
  ("constructor" ∉ resourceTypes) ∧
  validType "constructor" = "constructor" ∧
  detailFetches (Some "constructor") (Some "1") = [mkRequest "/constructor/1" []] ∧
  detailFetches (Some "constructor") (Some "1") ≠ [mkRequest "/people/1" []].
Proof.
  split_and!; try (vm_compute; reflexivity).
  - apply (bool_decide_eq_false_1 _). vm_compute. reflexivity.
  - vm_compute. discriminate.
Qed.

Example validType_droids :
  validType "droids" = "people" ∧
  detailFetches (Some "droids") (Some "7") = [mkRequest "/people/7" []].
Proof. split; vm_compute; reflexivity. Qed.

End TypeValidation.

(** * Further properties of the list page *)

Section ListPageEdges.
Import ResourceList.

(** X1: On a list-shaped response the rows are the [results] array itself: same
    items, same order, nothing normalised. *)
Theorem getItems_paginated_rows (data : JsVal) :
  isSearchResponse data = Ok false →
  isPaginatedResponse data = Ok true →
  ∃ rs, get data "results" = Ok (JArr rs) ∧ getItems data = Ok rs.
Proof.
  intros Hs Hp.
  assert (Ht : truthy data = true).
  { unfold isPaginatedResponse in Hp. by destruct (truthy data). }
  unfold getItems. rewrite Ht, Hs; simpl. rewrite Hp; simpl.
  unfold isPaginatedResponse in Hp. rewrite Ht in Hp.
  destruct (has_in "results" data) as [[|]|e]; simpl in Hp; try discriminate.
  destruct (get data "results") as [r|e]; simpl in *; [|discriminate].
  destruct r; simpl in Hp; try discriminate. by eexists.
Qed.

Lemma getItems_paginated_rows_witness :
  ∃ rs, get samplePage "results" = Ok (JArr rs) ∧ getItems samplePage = Ok rs.
Proof.
  apply (getItems_paginated_rows samplePage); vm_compute; reflexivity.
Defined.

Lemma shape_tests_object (fields : gmap string JsVal) :
  (∀ xs, lookupMember fields "result" ≠ JArr xs) →
  (∀ xs, lookupMember fields "results" ≠ JArr xs) →
  isSearchResponse (JObj fields) = Ok false ∧
  isPaginatedResponse (JObj fields) = Ok false.
Proof.
  intros Hres Hress. unfold isSearchResponse, isPaginatedResponse. simpl.
  split.
  - destruct (_ || _); simpl; [|done].
    destruct (lookupMember fields "result") eqn:Hl; simpl; try done.
    by destruct (Hres xs).
  - destruct (_ || _); simpl; [|done].
    destruct (lookupMember fields "results") eqn:Hl; simpl; try done.
    by destruct (Hress xs).
Qed.

(** X2: While there is no response yet, and on an object response that carries
    neither a [result] array nor a [results] array (an error envelope, say),
    the page has no rows and both totals are 0; nothing throws. *)
Theorem list_page_without_rows (data : JsVal) :
  truthy data = false ∨
  (∃ fields, data = JObj fields ∧
             (∀ xs, lookupMember fields "result" ≠ JArr xs) ∧
             (∀ xs, lookupMember fields "results" ≠ JArr xs)) →
  getItems data = Ok [] ∧
  getTotalRecords data = Ok (JNum 0) ∧
  getTotalPages data = Ok (JNum 0).
Proof.
  intros [Hf|(fields & -> & Hres & Hress)].
  - unfold getItems, getTotalRecords, getTotalPages. by rewrite Hf.
  - destruct (shape_tests_object fields Hres Hress) as [Hs Hp].
    unfold getItems, getTotalRecords, getTotalPages.
    change (truthy (JObj fields)) with true. simpl negb. cbv iota.
    by rewrite Hs, Hp.
Qed.

Lemma list_page_without_rows_witness :
  (getItems JUndefined = Ok [] ∧
   getTotalRecords JUndefined = Ok (JNum 0) ∧
   getTotalPages JUndefined = Ok (JNum 0)) ∧
  (getItems (obj [("message", JStr "Not found")]) = Ok [] ∧
   getTotalRecords (obj [("message", JStr "Not found")]) = Ok (JNum 0) ∧
   getTotalPages (obj [("message", JStr "Not found")]) = Ok (JNum 0)).
Proof.
  split.
  - apply list_page_without_rows. by left.
  - apply list_page_without_rows. right. eexists. split; [reflexivity|].
    split; intros xs; vm_compute; discriminate.
Defined.

(** X3: A response body that is a truthy primitive (a non-empty string, as for a
    body that is not JSON, a non-zero number or [true]) makes all three page
    functions throw the [TypeError] of the [in] operator. *)
Theorem list_page_throws_on_primitive (data : JsVal) :
  truthy data = true →
  (∃ s, data = JStr s) ∨ (∃ n, data = JNum n) ∨ (∃ b, data = JBool b) →
  ∃ msg,
    getItems data = Throw (TypeError msg) ∧
    getTotalRecords data = Throw (TypeError msg) ∧
    getTotalPages data = Throw (TypeError msg).
Proof.
  intros Ht Hprim. unfold getItems, getTotalRecords, getTotalPages, isSearchResponse.
  rewrite Ht. simpl negb. cbv iota.
  destruct Hprim as [[s ->]|[[n ->]|[b ->]]]; simpl; by eexists.
Qed.

Lemma list_page_throws_on_primitive_witness :
  ∃ msg,
    getItems (JStr "<html>Bad Gateway</html>") = Throw (TypeError msg) ∧
    getTotalRecords (JStr "<html>Bad Gateway</html>") = Throw (TypeError msg) ∧
    getTotalPages (JStr "<html>Bad Gateway</html>") = Throw (TypeError msg).
Proof.
  apply list_page_throws_on_primitive; [reflexivity | left; by eexists].
Defined.

Lemma toListItem_throws (item : JsVal) :
  ¬ hasProperties item → ∃ e, toListItem item = Throw e.
Proof.
  intros Hno. unfold toListItem.
  destruct (get item "properties") as [props|e] eqn:Hprops; simpl; [|by eexists].
  destruct (nullish props) eqn:Hnull.
  - pose proof (get_Ok_nullish _ _ _ Hprops) as Hitem.
    destruct (get_total item "uid" Hitem) as [uid ->]. simpl.
    destruct props; try discriminate; simpl; by eexists.
  - destruct Hno. by exists props.
Qed.

Lemma toListItem_Ok_inv (item out : JsVal) :
  toListItem item = Ok out → hasProperties item.
Proof.
  unfold toListItem.
  destruct (get item "properties") as [props|e] eqn:Hprops; simpl; [|discriminate].
  destruct (nullish props) eqn:Hnull; [|intros _; by exists props].
  pose proof (get_Ok_nullish _ _ _ Hprops) as Hitem.
  destruct (get_total item "uid" Hitem) as [uid ->]. simpl.
  destruct props; discriminate.
Qed.

Lemma mapR_Ok_Forall {A B} (f : A → Result B) (xs : list A) (ys : list B) :
  mapR f xs = Ok ys → Forall (λ x, ∃ y, f x = Ok y) xs.
Proof.
  revert ys. induction xs as [|x xs IH]; intros ys; simpl; [constructor|].
  destruct (f x) as [y|e] eqn:Hx; simpl; [|discriminate].
  destruct (mapR f xs) as [ys'|e] eqn:Hxs; simpl; [|discriminate].
  intros _. constructor; [by eexists | by eapply IH].
Qed.

(** X4: On a search-shaped response [getItems] returns rows exactly when every
    item of [result] carries a [properties] value that is neither [null] nor
    [undefined]; one item without it makes the whole call throw. *)
Theorem getItems_search_returns_iff (data : JsVal) (rs : list JsVal) :
  isSearchResponse data = Ok true →
  get data "result" = Ok (JArr rs) →
  ((∃ items, getItems data = Ok items) ↔ Forall hasProperties rs) ∧
  (¬ Forall hasProperties rs → ∃ e, getItems data = Throw e).
Proof.
  intros Hs Hr. rewrite (getItems_search data rs Hs Hr).
  assert (Hiff : (∃ items, mapR toListItem rs = Ok items) ↔ Forall hasProperties rs).
  { split.
    - intros [items Hitems]. apply mapR_Ok_Forall in Hitems.
      eapply Forall_impl; [exact Hitems|]. intros item [out Hout]. simpl in Hout.
      by eapply toListItem_Ok_inv.
    - intros Hwf. destruct (mapR_toListItem rs Hwf) as (items & ? & _). by exists items. }
  split; [done|]. intros Hno.
  destruct (mapR toListItem rs) as [items|e] eqn:Hm; [|by eexists].
  destruct Hno. apply Hiff. by eexists.
Qed.

Lemma getItems_search_returns_iff_witness :
  (∃ items, getItems sampleSearch = Ok items) ∧
  (∃ e, getItems (obj [("result", JArr [obj [("uid", JStr "1")]])]) = Throw e).
Proof.
  split.
  - apply (getItems_search_returns_iff sampleSearch sampleSearchItems);
      [vm_compute; reflexivity | vm_compute; reflexivity |].
    repeat constructor; eexists; (split; [vm_compute; reflexivity | reflexivity]).
  - apply (getItems_search_returns_iff _ [obj [("uid", JStr "1")]]);
      [vm_compute; reflexivity | vm_compute; reflexivity |].
    intros Hall. inversion Hall as [|? ? (props & Hprops & Hnull) _]; subst.
    vm_compute in Hprops. injection Hprops as <-. discriminate.
Defined.

Lemma toListItem_fields (item : JsVal) :
  hasProperties item →
  ∃ out props uid url,
    toListItem item = Ok out ∧
    get item "properties" = Ok props ∧
    get item "uid" = Ok uid ∧ get props "url" = Ok url ∧
    get out "uid" = Ok uid ∧ get out "url" = Ok url ∧
    (∀ k, k ∉ ["uid"; "name"; "url"] → get out k = Ok (fromPrototype k)).
Proof.
  intros (props & Hprops & Hnn).
  pose proof (get_Ok_nullish _ _ _ Hprops) as Hitem.
  destruct (get_total item "uid" Hitem) as [uid Huid].
  destruct (get_total props "name" Hnn) as [n Hn].
  destruct (get_total props "title" Hnn) as [t Ht].
  destruct (get_total props "url" Hnn) as [u Hu].
  assert (Hrow : ∀ nm,
    let out := JObj (<["uid" := uid]> (<["name" := nm]> (<["url" := u]> ∅))) in
    get out "uid" = Ok uid ∧ get out "url" = Ok u ∧
    (∀ k, k ∉ ["uid"; "name"; "url"] → get out k = Ok (fromPrototype k))).
  { intros nm out. unfold out. simpl. unfold lookupMember. split_and!.
    - by rewrite lookup_insert_eq.
    - rewrite !lookup_insert_ne by discriminate. by rewrite lookup_insert_eq.
    - intros k Hk. rewrite !lookup_insert_ne by set_solver.
      by rewrite lookup_empty. }
  unfold toListItem. rewrite Hprops; simpl. rewrite Huid; simpl. rewrite Hn; simpl.
  destruct (truthy n); simpl.
  - rewrite Hu; simpl. eexists _, props, uid, u.
    destruct (Hrow n) as (? & ? & ?). by split_and!.
  - rewrite Ht; simpl. rewrite Hu; simpl. eexists _, props, uid, u.
    destruct (Hrow (js_or t (JStr "Unknown"))) as (? & ? & ?). by split_and!.
Qed.

(** X5: The rows made from a search-shaped response keep each item's [uid] and
    take their [url] from [properties.url]; apart from [uid], [name] and
    [url] a row has no property of its own. *)
Theorem getItems_search_rows_keep_uid_url (data : JsVal) (rs : list JsVal) :
  isSearchResponse data = Ok true →
  get data "result" = Ok (JArr rs) →
  Forall hasProperties rs →
  ∃ items,
    getItems data = Ok items ∧
    Forall2 (λ item out,
               get out "uid" = get item "uid" ∧
               (∃ props, get item "properties" = Ok props ∧
                         get out "url" = get props "url") ∧
               (∀ k, k ∉ ["uid"; "name"; "url"] → get out k = Ok (fromPrototype k)))
            rs items.
Proof.
  intros Hs Hr Hwf. rewrite (getItems_search data rs Hs Hr). clear Hs Hr.
  induction Hwf as [|item rs Hitem _ IH]; simpl.
  - exists []. split; [done|constructor].
  - destruct (toListItem_fields item Hitem)
      as (out & props & uid & url & -> & Hp & Hu & Hurl & Hou & Hourl & Hrest).
    destruct IH as (items & -> & Hall). simpl. exists (out :: items).
    split; [done|]. constructor; [|done].
    split_and!; [congruence | exists props; split; congruence | done].
Qed.

Lemma getItems_search_rows_keep_uid_url_witness :
  ∃ items,
    getItems sampleSearch = Ok items ∧
    Forall2 (λ item out,
               get out "uid" = get item "uid" ∧
               (∃ props, get item "properties" = Ok props ∧
                         get out "url" = get props "url") ∧
               (∀ k, k ∉ ["uid"; "name"; "url"] → get out k = Ok (fromPrototype k)))
            sampleSearchItems items.
Proof.
  apply (getItems_search_rows_keep_uid_url sampleSearch sampleSearchItems);
    [vm_compute; reflexivity | vm_compute; reflexivity |].
  repeat constructor; eexists; (split; [vm_compute; reflexivity | reflexivity]).
Defined.

End ListPageEdges.

(** * Further properties of the view state *)

Section SortColumns.
Import ResourceList ResourceListColumns.

Lemma handleColumnSort_thrice_witness :
  Nat.iter 3 (handleColumnSort "name") defaultSortConfig !! "name" = Some None.
Proof. apply handleColumnSort_thrice. reflexivity. Defined.

(** X8: After a click on a column no other column is sorted: every other stored
    column holds [null], and the click neither drops nor adds another
    column. *)
Theorem handleColumnSort_clears_others (columnKey other : string)
    (prev : gmap string (option bool)) :
  other ≠ columnKey →
  (∀ state, handleColumnSort columnKey prev !! other = Some state → state = None) ∧
  (is_Some (handleColumnSort columnKey prev !! other) ↔ is_Some (prev !! other)).
Proof.
  intros Hne. rewrite (handleColumnSort_other columnKey other prev Hne).
  destruct (prev !! other) as [st|]; simpl; split.
  - by intros state [= <-].
  - split; intros _; by eexists.
  - discriminate.
  - split; intros [? ?]; discriminate.
Qed.

Lemma handleColumnSort_clears_others_witness :
  handleColumnSort "uid" (<["name" := Some true]> defaultSortConfig) !! "name"
    = Some None.
Proof.
  destruct (handleColumnSort_clears_others "uid" "name"
              (<["name" := Some true]> defaultSortConfig)) as [Hnull Hkept];
    [discriminate|].
  destruct (proj2 Hkept) as [state Hstate]; [by eexists|].
  rewrite Hstate. f_equal. by apply Hnull.
Defined.



End SortColumns.

Section FavoritesMore.
Import ResourceDetail ResourceDetailView.

Lemma sameKey_new_item (x : StoredItem) :
  sameKey (Some (id x)) (type x) x = true.
Proof. unfold sameKey. by rewrite !String.eqb_refl. Qed.

Lemma isFavorite_false_key (favorites : list FavoriteItem) (i vtype : string) :
  isFavorite favorites (Some i) vtype = false →
  (vtype, i) ∉ keyOf <$> favorites.
Proof.
  unfold isFavorite. induction favorites as [|x l IH].
  - intros _. apply not_elem_of_nil.
  - rewrite fmap_cons. cbn [existsb].
    intros [Hx Hl]%orb_false_iff. apply not_elem_of_cons.
    split; [|by apply IH].
    intros Hkey. unfold keyOf in Hkey. injection Hkey as -> ->.
    by rewrite sameKey_new_item in Hx.
Qed.

(** X10: One toggle of a loaded resource flips the favorite status of its own key
    and of no other key. *)
Theorem toggleFavorite_flips (fields : gmap string JsVal) (i vtype : string)
    (now : Z) (favorites : list FavoriteItem) (k : option string) (t : string) :
  isFavorite (toggleFavorite (Some fields) (Some i) vtype now favorites) k t
  = if decide ((k, t) = (Some i, vtype))
    then negb (isFavorite favorites k t)
    else isFavorite favorites k t.
Proof.
  destruct (isFavorite favorites (Some i) vtype) eqn:Hfav.
  - rewrite toggleFavorite_present by done. unfold isFavorite.
    case_decide as Hk.
    + injection Hk as -> ->. rewrite filter_removes.
      unfold isFavorite in Hfav. by rewrite Hfav.
    + by apply existsb_filter_other.
  - rewrite toggleFavorite_absent by done. unfold isFavorite.
    rewrite existsb_app. simpl. rewrite orb_false_r.
    case_decide as Hk.
    + injection Hk as -> ->. rewrite sameKey_new, orb_true_r.
      unfold isFavorite in Hfav. by rewrite Hfav.
    + destruct (sameKey k t _) eqn:Hnew; [|by rewrite orb_false_r].
      apply sameKey_iff in Hnew as [-> ->]. done.
Qed.

(** X11: The favorites stay unique per key: when no two entries share a
    [(type, id)] key before a toggle, none do after it. *)
Theorem toggleFavorite_keeps_keys_unique (properties : Properties)
    (i vtype : string) (now : Z) (favorites : list FavoriteItem) :
  NoDup (keyOf <$> favorites) →
  NoDup (keyOf <$> toggleFavorite properties (Some i) vtype now favorites).
Proof.
  intros Hnd. destruct properties as [fields|]; [|done].
  destruct (isFavorite favorites (Some i) vtype) eqn:Hfav.
  - rewrite toggleFavorite_present by done.
    apply (sublist_NoDup _ (keyOf <$> favorites)); [exact Hnd|].
    apply fmap_sublist, sublist_filter.
  - rewrite toggleFavorite_absent by done. rewrite fmap_app. simpl.
    apply NoDup_app. split_and!; [done| |apply NoDup_singleton].
    intros key Hin Hnew. apply list_elem_of_singleton in Hnew. subst key.
    by apply (isFavorite_false_key favorites i vtype Hfav).
Qed.

Lemma toggleFavorite_keeps_keys_unique_witness :
  NoDup (keyOf <$> toggleFavorite lukeProperties (Some "5") "people" 3000 sampleFavorites).
Proof.
  apply toggleFavorite_keeps_keys_unique.
  apply (bool_decide_unpack _). vm_compute. exact I.
Defined.

End FavoritesMore.

Ltac bool_side H := rewrite ?H; simpl; tauto.

Section ListFavorites.
Import ResourceListColumns.

Lemma favKey_iff (type uid : string) (item : ListFavorite) :
  favKey type uid item = true ↔ fav_id item = uid ∧ fav_type item = type.
Proof. unfold favKey. by rewrite andb_true_iff, !String.eqb_eq. Qed.

Lemma favKey_filter_removes (type uid : string) (l : list ListFavorite) :
  existsb (favKey type uid) (filter (λ item, negb (favKey type uid item)) l) = false.
Proof.
  induction l as [|x l IH]; simpl; [done|].
  destruct (favKey type uid x) eqn:Hx.
  - by rewrite filter_cons_False by bool_side Hx.
  - rewrite filter_cons_True by bool_side Hx. simpl. by rewrite Hx, IH.
Qed.

Lemma favKey_filter_other (type uid type' uid' : string) (l : list ListFavorite) :
  (type', uid') ≠ (type, uid) →
  existsb (favKey type' uid') (filter (λ item, negb (favKey type uid item)) l)
    = existsb (favKey type' uid') l.
Proof.
  intros Hne. induction l as [|x l IH]; simpl; [done|].
  destruct (favKey type uid x) eqn:Hx.
  - rewrite filter_cons_False by bool_side Hx. rewrite IH.
    destruct (favKey type' uid' x) eqn:Hx'; [|done].
    apply favKey_iff in Hx as [<- <-]. apply favKey_iff in Hx' as [<- <-]. done.
  - rewrite filter_cons_True by bool_side Hx. simpl. by rewrite IH.
Qed.

Lemma favKey_filter_absent (type uid : string) (l : list ListFavorite) :
  existsb (favKey type uid) l = false →
  filter (λ item, negb (favKey type uid item)) l = l.
Proof.
  induction l as [|x l IH]; simpl; [done|].
  intros [Hx Hl]%orb_false_iff.
  rewrite filter_cons_True by bool_side Hx. by rewrite IH.
Qed.

(** X12: On the list page one click on a star flips the favorite status of that
    item, and of no other item of this or another resource type. *)
Theorem list_toggleFavorite_flips (type uid : string) (nm : JsVal)
    (prev : list ListFavorite) (type' uid' : string) :
  isFavorite type' (toggleFavorite type uid nm prev) uid'
  = if decide ((type', uid') = (type, uid))
    then negb (isFavorite type' prev uid')
    else isFavorite type' prev uid'.
Proof.
  unfold isFavorite, toggleFavorite.
  destruct (existsb (favKey type uid) prev) eqn:Hfav.
  - case_decide as Hk.
    + injection Hk as -> ->. by rewrite favKey_filter_removes, Hfav.
    + by apply favKey_filter_other.
  - rewrite existsb_app. simpl. rewrite orb_false_r.
    case_decide as Hk.
    + injection Hk as -> ->. rewrite Hfav. simpl.
      unfold favKey. simpl. by rewrite !String.eqb_refl.
    + destruct (favKey type' uid' _) eqn:Hnew; [|by rewrite orb_false_r].
      apply favKey_iff in Hnew as [<- <-]. done.
Qed.

Lemma favKey_absent_notin (type uid : string) (l : list ListFavorite) :
  (type, uid) ∉ favKeyOf <$> l → existsb (favKey type uid) l = false.
Proof.
  induction l as [|x l IH]; [done|]. rewrite fmap_cons. cbn [existsb].
  intros [Hx Hl]%not_elem_of_cons. rewrite IH by done. rewrite orb_false_r.
  destruct (favKey type uid x) eqn:Hk; [|done].
  apply favKey_iff in Hk as [<- <-]. done.
Qed.

Lemma favoritesOfType_cons (type : string) (x : ListFavorite) (l : list ListFavorite) :
  favoritesOfType type (x :: l)
  = (if String.eqb (fav_type x) type then 1 else 0) + favoritesOfType type l.
Proof.
  unfold favoritesOfType. destruct (String.eqb (fav_type x) type) eqn:Hx.
  - by rewrite filter_cons_True by bool_side Hx.
  - by rewrite filter_cons_False by bool_side Hx.
Qed.

(** X13: The favorites counter of the statistics panel follows the stars:
    starring an item raises the count of its type by one, removing the only
    entry of a starred item lowers it by one, and the counts of the other
    types never move. *)
Theorem favoritesOfType_toggle (type uid : string) (nm : JsVal)
    (prev : list ListFavorite) :
  (isFavorite type prev uid = false →
   favoritesOfType type (toggleFavorite type uid nm prev)
     = S (favoritesOfType type prev)) ∧
  (isFavorite type prev uid = true → NoDup (favKeyOf <$> prev) →
   S (favoritesOfType type (toggleFavorite type uid nm prev))
     = favoritesOfType type prev) ∧
  (∀ type', type' ≠ type →
   favoritesOfType type' (toggleFavorite type uid nm prev)
     = favoritesOfType type' prev).
Proof.
  unfold isFavorite, toggleFavorite. split_and!.
  - intros ->. unfold favoritesOfType. rewrite filter_app, length_app.
    rewrite filter_cons_True by (simpl; by rewrite String.eqb_refl).
    simpl. lia.
  - intros Hfav Hnd. rewrite Hfav. clear nm.
    induction prev as [|x l IH]; [done|].
    rewrite fmap_cons in Hnd. apply NoDup_cons in Hnd as [Hx Hl].
    rewrite favoritesOfType_cons.
    destruct (favKey type uid x) eqn:Hk.
    + rewrite filter_cons_False by bool_side Hk.
      apply favKey_iff in Hk as [<- <-]. rewrite String.eqb_refl.
      by rewrite favKey_filter_absent by (by apply favKey_absent_notin).
    + rewrite filter_cons_True by bool_side Hk. rewrite favoritesOfType_cons.
      cbn [existsb] in Hfav. rewrite Hk in Hfav. simpl in Hfav.
      specialize (IH Hfav Hl). lia.
  - intros type' Hne. destruct (existsb (favKey type uid) prev).
    + induction prev as [|x l IH]; [done|].
      rewrite favoritesOfType_cons.
      destruct (favKey type uid x) eqn:Hk.
      * rewrite filter_cons_False by bool_side Hk. rewrite IH.
        apply favKey_iff in Hk as [_ Ht].
        assert (String.eqb (fav_type x) type' = false) as ->
          by (apply String.eqb_neq; congruence).
        done.
      * rewrite filter_cons_True by bool_side Hk.
        by rewrite favoritesOfType_cons, IH.
    + unfold favoritesOfType. rewrite filter_app.
      rewrite (filter_cons_False _ (mkListFavorite uid type nm))
        by (simpl; intros Ht%Is_true_true%String.eqb_eq; done).
      by rewrite filter_nil, app_nil_r.
Qed.

Lemma favoritesOfType_toggle_witness :
  favoritesOfType "people"
    (toggleFavorite "people" "1" (JStr "Luke Skywalker") []) = 1 ∧
  S (favoritesOfType "people"
       (toggleFavorite "people" "1" (JStr "Luke Skywalker")
          [mkListFavorite "1" "people" (JStr "Luke Skywalker")])) = 1 ∧
  favoritesOfType "films"
    (toggleFavorite "people" "1" (JStr "Luke Skywalker") []) = 0.
Proof.
  destruct (favoritesOfType_toggle "people" "1" (JStr "Luke Skywalker") [])
    as (Hadd & _ & Hother).
  destruct (favoritesOfType_toggle "people" "1" (JStr "Luke Skywalker")
              [mkListFavorite "1" "people" (JStr "Luke Skywalker")])
    as (_ & Hremove & _).
  split_and!.
  - apply (Hadd eq_refl).
  - apply (Hremove eq_refl). apply (bool_decide_unpack _). vm_compute. exact I.
  - apply (Hother "films"). discriminate.
Defined.

End ListFavorites.

Section RecentlyViewedMore.
Import ResourceDetail ResourceDetailView.

Lemma recordView_run (properties : Properties) (i vtype : string) (now : Z)
    (l : list RecentlyViewedItem) :
  i ≠ "" →
  recordView properties (Some i) vtype now l
  = mkStoredItem i vtype
      (js_or (getResourceName properties) (JStr (vtype +:+ " " +:+ i))) now
    :: take 9 (filter (λ item, negb (sameKey (Some i) vtype item)) l).
Proof.
  intros Hi. unfold recordView.
  by apply String.eqb_neq in Hi as ->.
Qed.

Lemma filter_take_absent (k : option string) (vtype : string) (n : nat)
    (l : list StoredItem) :
  existsb (sameKey k vtype) l = false →
  filter (λ item, negb (sameKey k vtype item)) (take n l) = take n l.
Proof. intros Hl. by apply filter_absent, existsb_take_false. Qed.

(** X14: Viewing the same resource again only renews its time stamp: recording a
    view twice in a row gives the list that the second recording alone would
    give. *)
Theorem recordView_absorbs (properties : Properties) (i vtype : string)
    (now now' : Z) (l : list RecentlyViewedItem) :
  i ≠ "" →
  recordView properties (Some i) vtype now'
    (recordView properties (Some i) vtype now l)
  = recordView properties (Some i) vtype now' l.
Proof.
  intros Hi. rewrite !recordView_run by done. f_equal.
  rewrite filter_cons_False by bool_side sameKey_new.
  rewrite filter_take_absent by apply filter_removes.
  rewrite take_take. by rewrite Nat.min_id.
Qed.

Lemma recordView_absorbs_witness :
  recordView lukeProperties (Some "1") "people" 6000
    (recordView lukeProperties (Some "1") "people" 5000 [tatooine; luke; leia])
  = recordView lukeProperties (Some "1") "people" 6000 [tatooine; luke; leia].
Proof. apply recordView_absorbs. discriminate. Defined.

(** X15: A list within the cap takes a new key without losing an entry; a full
    list gives up its last entries, and only those. *)
Theorem recordView_capacity (properties : Properties) (i vtype : string)
    (now : Z) (l : list RecentlyViewedItem) :
  i ≠ "" →
  existsb (sameKey (Some i) vtype) l = false →
  ∃ entry,
    id entry = i ∧ type entry = vtype ∧ timestamp entry = now ∧
    recordView properties (Some i) vtype now l = entry :: take 9 l ∧
    (length l < 10 → recordView properties (Some i) vtype now l = entry :: l).
Proof.
  intros Hi Habs. rewrite recordView_run by done.
  exists (mkStoredItem i vtype
            (js_or (getResourceName properties) (JStr (vtype +:+ " " +:+ i))) now).
  split_and!; try done.
  - by rewrite filter_absent by done.
  - intros Hlen. rewrite filter_absent by done. f_equal. apply take_ge.
    by apply Nat.lt_succ_r.
Qed.

Lemma recordView_capacity_witness :
  ∃ entry,
    id entry = "7" ∧ type entry = "films" ∧ timestamp entry = 5000%Z ∧
    recordView lukeProperties (Some "7") "films" 5000 [tatooine; luke; leia]
      = entry :: take 9 [tatooine; luke; leia] ∧
    (length [tatooine; luke; leia] < 10 →
     recordView lukeProperties (Some "7") "films" 5000 [tatooine; luke; leia]
       = entry :: [tatooine; luke; leia]).
Proof. apply recordView_capacity; [discriminate | reflexivity]. Defined.

(** X16: The recently viewed list stays unique per key: when no two entries share
    a [(type, id)] key before a view is recorded, none do after it. *)
Theorem recordView_keeps_keys_unique (properties : Properties)
    (rid : option string) (vtype : string) (now : Z)
    (l : list RecentlyViewedItem) :
  NoDup (keyOf <$> l) →
  NoDup (keyOf <$> recordView properties rid vtype now l).
Proof.
  intros Hnd. destruct rid as [i|]; [|done].
  destruct (decide (i = "")) as [->|Hi]; [done|].
  rewrite recordView_run by done. rewrite fmap_cons. apply NoDup_cons. split.
  - intros (x & Hkey & Hin)%list_elem_of_fmap.
    pose proof (elem_of_sublist _ _ _ Hin (sublist_take _ _)) as Hin'.
    apply list_elem_of_filter in Hin' as [Hnot _]. unfold keyOf in Hkey. simpl in Hkey.
    injection Hkey as -> ->. by rewrite sameKey_new_item in Hnot.
  - apply (sublist_NoDup _ (keyOf <$> l)); [exact Hnd|].
    apply fmap_sublist. etransitivity; [apply sublist_take | apply sublist_filter].
Qed.

Lemma recordView_keeps_keys_unique_witness :
  NoDup (keyOf <$> recordView lukeProperties (Some "1") "people" 5000
                     [tatooine; luke; leia]).
Proof.
  apply recordView_keeps_keys_unique.
  apply (bool_decide_unpack _). vm_compute. exact I.
Defined.

(** X17: Once a view is recorded, the "Recently Viewed" panel lists the five most
    recent entries of the former list other than the resource on display;
    the resource on display is never listed and the panel never has more
    than five entries. *)
Theorem panelItems_after_recordView (properties : Properties) (i vtype : string)
    (now : Z) (l : list RecentlyViewedItem) :
  i ≠ "" →
  let shown := panelItems (Some i) vtype (recordView properties (Some i) vtype now l) in
  shown = take 5 (filter (λ item, negb (sameKey (Some i) vtype item)) l) ∧
  existsb (sameKey (Some i) vtype) shown = false ∧
  length shown ≤ 5.
Proof.
  intros Hi shown.
  assert (Hshown : shown
            = take 5 (filter (λ item, negb (sameKey (Some i) vtype item)) l)).
  { unfold shown, panelItems. rewrite recordView_run by done.
    rewrite filter_cons_False by bool_side sameKey_new.
    rewrite filter_take_absent by apply filter_removes.
    by rewrite take_take. }
  split_and!; [done| |].
  - rewrite Hshown. apply existsb_take_false, filter_removes.
  - rewrite Hshown, length_take. lia.
Qed.

Lemma panelItems_after_recordView_witness :
  panelItems (Some "1") "people"
    (recordView lukeProperties (Some "1") "people" 5000 [tatooine; luke; leia])
  = [tatooine; leia].
Proof.
  destruct (panelItems_after_recordView lukeProperties "1" "people" 5000
              [tatooine; luke; leia]) as [-> _]; [discriminate | reflexivity].
Defined.

End RecentlyViewedMore.

Section RecentlyViewedPanel.
Import ResourceDetail ResourceDetailView.

Lemma validType_configured (t : string) : configured (validType t) = true.
Proof.
  unfold validType. destruct (configured t) eqn:Ht; [done|].
  vm_compute. reflexivity.
Qed.

Lemma panelRow_configured (item : RecentlyViewedItem) :
  configured (type item) = true → ∃ row, panelRow item = Ok row.
Proof.
  unfold configured, panelRow. intros Hcfg.
  assert (Hnn : nullish (lookupMember resourceConfig (type item)) = false)
    by (by destruct (lookupMember resourceConfig (type item))).
  destruct (get_total _ "icon" Hnn) as [icon ->].
  destruct (get_total _ "label" Hnn) as [lbl ->]. simpl. by eexists.
Qed.

Lemma Forall_filter_keep {A} (P : A → Prop) (Q : A → Prop)
    `{∀ x, Decision (Q x)} (l : list A) :
  Forall P l → Forall P (filter Q l).
Proof.
  intros Hl. apply Forall_forall. intros x [_ Hx]%list_elem_of_filter.
  by eapply Forall_forall in Hl.
Qed.

Lemma mapR_total {A B} (f : A → Result B) (xs : list A) :
  Forall (λ x, ∃ y, f x = Ok y) xs → ∃ ys, mapR f xs = Ok ys.
Proof.
  induction 1 as [|x xs [y Hy] _ [ys IH]]; simpl; [by eexists|].
  rewrite Hy, IH. simpl. by eexists.
Qed.

(** X18: Every entry that [recordView] writes carries a validated type, so the
    "Recently Viewed" panel can read [resourceConfig[item.type]] for each of
    them: starting from entries with configured types, recording a view
    keeps them so and the panel renders without a [TypeError]. *)
Theorem recordView_panel_renders (properties : Properties)
    (rid rid' : option string) (t vtype' : string) (now : Z)
    (l : list RecentlyViewedItem) :
  Forall (λ item, configured (type item) = true) l →
  Forall (λ item, configured (type item) = true)
         (recordView properties rid (validType t) now l) ∧
  ∃ panel,
    recentlyViewedPanel rid' vtype'
      (recordView properties rid (validType t) now l) = Ok panel.
Proof.
  intros Hl.
  assert (Hrec : Forall (λ item, configured (type item) = true)
                        (recordView properties rid (validType t) now l)).
  { unfold recordView. destruct rid as [i|]; [|done].
    destruct (String.eqb i ""); [done|]. unfold recordViewUpdater.
    apply Forall_take. constructor; [apply validType_configured|].
    by apply Forall_filter_keep. }
  split; [done|]. unfold recentlyViewedPanel.
  destruct (1 <? length _); [|by eexists].
  destruct (mapR_total panelRow
              (panelItems rid' vtype' (recordView properties rid (validType t) now l)))
    as [rows ->]; [|by eexists].
  unfold panelItems. apply Forall_take, Forall_filter_keep.
  eapply Forall_impl; [exact Hrec|]. intros item. apply panelRow_configured.
Qed.

Lemma recordView_panel_renders_witness :
  ∃ panel,
    recentlyViewedPanel (Some "1") "people"
      (recordView lukeProperties (Some "1") (validType "droids") 5000
         [tatooine; luke; leia]) = Ok panel.
Proof.
  apply (recordView_panel_renders lukeProperties (Some "1") (Some "1") "droids"
           "people" 5000 [tatooine; luke; leia]).
  repeat constructor.
Defined.

End RecentlyViewedPanel.

(** * Further properties of references and requests *)

Section UrlParsing.
Import Api ResourceDetail ResourceDetailView.

Lemma split_nonempty (sep : Ascii.ascii) (s : string) : split sep s ≠ [].
Proof.
  destruct s as [|ch s]; simpl; [done|].
  destruct (Ascii.eqb ch sep); [done|]. by destruct (split sep s).
Qed.

Lemma split_sep_free (sep : Ascii.ascii) (s : string) :
  contains sep s = false → split sep s = [s].
Proof.
  induction s as [|ch s IH]; simpl; [done|].
  intros [Hch Hs]%orb_false_iff. rewrite Hch, IH; done.
Qed.

Lemma split_app_sep (sep : Ascii.ascii) (s t : string) :
  split sep (s +:+ String sep t) = split sep s ++ split sep t.
Proof.
  induction s as [|ch s IH]; simpl.
  - by rewrite Ascii.eqb_refl.
  - destruct (Ascii.eqb ch sep); [by rewrite IH|].
    rewrite IH. destruct (split sep s) eqn:Hs; [|done].
    by destruct (split_nonempty sep s).
Qed.

Lemma fromEnd_last (parts : list string) (x : string) :
  fromEnd (parts ++ [x]) 1 = Some x.
Proof.
  unfold fromEnd. rewrite length_app. simpl.
  replace (length parts + 1 <? 1) with false by (symmetry; apply Nat.ltb_ge; lia).
  replace (length parts + 1 - 1) with (length parts + 0) by lia.
  by rewrite lookup_app_r, Nat.add_0_r, Nat.sub_diag by lia.
Qed.

Lemma fromEnd_second_last (parts : list string) (x y : string) :
  fromEnd (parts ++ [x; y]) 2 = Some x.
Proof.
  unfold fromEnd. rewrite length_app. simpl.
  replace (length parts + 2 <? 2) with false by (symmetry; apply Nat.ltb_ge; lia).
  replace (length parts + 2 - 2) with (length parts + 0) by lia.
  by rewrite lookup_app_r, Nat.add_0_r, Nat.sub_diag by lia.
Qed.

Lemma resourceTypes_slash_free (type : string) :
  type ∈ resourceTypes → contains "/" type = false.
Proof.
  unfold resourceTypes. intros Hin.
  repeat (apply elem_of_cons in Hin as [->|Hin]; [reflexivity|]).
  by apply elem_of_nil in Hin.
Qed.

Lemma split_canonical (prefix type rid : string) :
  contains "/" type = false → contains "/" rid = false →
  split "/" (prefix +:+ "/" +:+ type +:+ "/" +:+ rid)
  = split "/" prefix ++ [type; rid].
Proof.
  intros Htype Hrid.
  change (prefix +:+ "/" +:+ type +:+ "/" +:+ rid)
    with (prefix +:+ String "/" (type +:+ String "/" rid)).
  by rewrite !split_app_sep, (split_sep_free _ type), (split_sep_free _ rid).
Qed.

Lemma extract_type_and_id_parts (prefix type rid : string) :
  type ∈ resourceTypes → contains "/" rid = false →
  extractTypeFromUrl (prefix +:+ "/" +:+ type +:+ "/" +:+ rid) = Some type ∧
  extractIdFromUrl (prefix +:+ "/" +:+ type +:+ "/" +:+ rid) = Some rid.
Proof.
  intros Htype Hrid. unfold extractTypeFromUrl, extractIdFromUrl.
  rewrite split_canonical by (done || by apply resourceTypes_slash_free).
  rewrite fromEnd_second_last. simpl toKey.
  assert (configured type = true) as -> by (apply configured_iff; by left).
  split; [done|].
  change [type; rid] with ([type] ++ [rid]). by rewrite app_assoc, fromEnd_last.
Qed.

(** X20: Parsing undoes building: for a URL that ends in [/type/id], with one of
    the six types and an id without a slash, [extractTypeFromUrl] gives back
    the type and [extractIdFromUrl] the id, whatever precedes them. *)
Theorem extract_type_and_id (prefix type rid : string) :
  type ∈ resourceTypes → contains "/" rid = false →
  let url := prefix +:+ "/" +:+ type +:+ "/" +:+ rid in
  extractTypeFromUrl url = Some type ∧ extractIdFromUrl url = Some rid.
Proof.
  intros Htype Hrid url. by apply extract_type_and_id_parts.
Qed.

Lemma extract_type_and_id_witness :
  extractTypeFromUrl "https://www.swapi.tech/api/planets/14" = Some "planets" ∧
  extractIdFromUrl "https://www.swapi.tech/api/planets/14" = Some "14".
Proof.
  apply (extract_type_and_id "https://www.swapi.tech/api" "planets" "14");
    [|reflexivity].
  apply (bool_decide_unpack _). vm_compute. exact I.
Defined.

(** X21: A trailing slash shifts both segments: the id comes out empty and the
    type is looked for where the id stands, so a reference written
    [.../type/id/] with an id that names no configured entry is not resolved
    and nothing is fetched for it. *)
Theorem trailing_slash_not_resolved (prefix type rid : string) :
  contains "/" type = false → contains "/" rid = false →
  configured rid = false →
  let url := prefix +:+ "/" +:+ type +:+ "/" +:+ rid +:+ "/" in
  extractIdFromUrl url = Some "" ∧
  extractTypeFromUrl url = None ∧
  fetches (RelatedItem url) = [] ∧
  rendersCard (RelatedItem url) = false.
Proof.
  intros Htype Hrid Hcfg url.
  assert (Hsplit : split "/" url = (split "/" prefix ++ [type]) ++ [rid; ""]).
  { unfold url.
    change (prefix +:+ "/" +:+ type +:+ "/" +:+ rid +:+ "/")
      with (prefix +:+ String "/" (type +:+ String "/" (rid +:+ String "/" ""))).
    rewrite !split_app_sep, (split_sep_free _ type), (split_sep_free _ rid) by done.
    simpl. by rewrite <- app_assoc. }
  assert (Hid : extractIdFromUrl url = Some "").
  { unfold extractIdFromUrl. rewrite Hsplit.
    change [rid; ""] with ([rid] ++ [""]). by rewrite app_assoc, fromEnd_last. }
  assert (Hty : extractTypeFromUrl url = None).
  { unfold extractTypeFromUrl. rewrite Hsplit, fromEnd_second_last. simpl toKey.
    by rewrite Hcfg. }
  split_and!; try done; unfold RelatedItem; rewrite Hty; simpl;
    by rewrite ?andb_false_r.
Qed.

Lemma trailing_slash_not_resolved_witness :
  extractIdFromUrl "https://swapi.tech/api/people/1/" = Some "" ∧
  extractTypeFromUrl "https://swapi.tech/api/people/1/" = None ∧
  fetches (RelatedItem "https://swapi.tech/api/people/1/") = [] ∧
  rendersCard (RelatedItem "https://swapi.tech/api/people/1/") = false.
Proof.
  apply (trailing_slash_not_resolved "https://swapi.tech/api" "people" "1");
    reflexivity.
Defined.

(** X22: A string without a slash has no type segment: it is its own id, the
    type is [null] and nothing is fetched. *)
Theorem no_slash_not_resolved (url : string) :
  contains "/" url = false →
  extractIdFromUrl url = Some url ∧
  extractTypeFromUrl url = None ∧
  fetches (RelatedItem url) = [].
Proof.
  intros Hurl.
  assert (Hty : extractTypeFromUrl url = None).
  { unfold extractTypeFromUrl. by rewrite split_sep_free. }
  split_and!; [| done |].
  - unfold extractIdFromUrl. by rewrite split_sep_free.
  - unfold RelatedItem. rewrite Hty. simpl. by rewrite andb_false_r.
Qed.

Lemma no_slash_not_resolved_witness :
  extractIdFromUrl "people" = Some "people" ∧
  extractTypeFromUrl "people" = None ∧
  fetches (RelatedItem "people") = [].
Proof. apply no_slash_not_resolved. reflexivity. Defined.

End UrlParsing.

Section UrlRequests.
Import Api ResourceDetail ResourceDetailView.

Lemma replaceFirst_unfold (pat rep s : string) :
  replaceFirst pat rep s =
  if String.prefix pat s
  then rep +:+ String.substring (String.length pat) (String.length s) s
  else match s with
       | EmptyString => EmptyString
       | String ch s' => String ch (replaceFirst pat rep s')
       end.
Proof. by destruct s. Qed.

Lemma prefix_app (pat s : string) : String.prefix pat (pat +:+ s) = true.
Proof.
  induction pat as [|ch pat IH]; simpl; [by destruct s|].
  by destruct (Ascii.ascii_dec ch ch).
Qed.

Lemma prefix_inv (pat s : string) :
  String.prefix pat s = true → ∃ rest, s = pat +:+ rest.
Proof.
  revert s. induction pat as [|ch pat IH]; intros s; simpl.
  - intros _. by exists s.
  - destruct s as [|c s]; simpl; [discriminate|].
    destruct (Ascii.ascii_dec ch c) as [->|]; [|discriminate].
    intros [rest ->]%IH. by exists rest.
Qed.

Lemma substring_all (n : nat) (s : string) :
  String.length s ≤ n → String.substring 0 n s = s.
Proof.
  revert n. induction s as [|ch s IH]; intros [|n]; simpl; try done; try lia.
  intros Hn. rewrite IH; [done|lia].
Qed.

Lemma substring_skip (pat s : string) (n : nat) :
  String.substring (String.length pat) n (pat +:+ s) = String.substring 0 n s.
Proof. induction pat as [|ch pat IH]; simpl; [done|]. apply IH. Qed.

Lemma length_append (a b : string) :
  String.length (a +:+ b) = String.length a + String.length b.
Proof. induction a as [|ch a IH]; simpl; [done|]. by rewrite IH. Qed.

Lemma occurs_spec (pat s : string) :
  occurs pat s = true ↔ ∃ before after, s = before +:+ pat +:+ after.
Proof.
  split.
  - induction s as [|ch s IH]; cbn [occurs].
    + rewrite orb_false_r. intros [rest Hrest]%prefix_inv. by exists "", rest.
    + intros [[rest Hrest]%prefix_inv|(before & after & ->)%IH]%orb_true_iff.
      * by exists "", rest.
      * by exists (String ch before), after.
  - intros (before & after & ->). induction before as [|ch before IH].
    + change ("" +:+ pat +:+ after) with (pat +:+ after).
      destruct (pat +:+ after) eqn:Hs; cbn [occurs]; rewrite <- Hs;
        by rewrite prefix_app.
    + change (String ch before +:+ pat +:+ after)
        with (String ch (before +:+ pat +:+ after)).
      cbn [occurs]. by rewrite IH, orb_true_r.
Qed.

Lemma replaceFirst_strips_prefix (pat rest : string) :
  replaceFirst pat "" (pat +:+ rest) = rest.
Proof.
  rewrite replaceFirst_unfold, prefix_app.
  rewrite substring_skip. simpl. apply substring_all.
  rewrite length_append. lia.
Qed.

(** X23: [getResourceByUrl] asks for a URL under the base by its path: stripping
    the base from [base + path] leaves [path]. *)
Theorem urlRequest_under_base (path : string) :
  urlRequest (baseURL +:+ path) = mkRequest path [].
Proof. unfold urlRequest. f_equal. apply replaceFirst_strips_prefix. Qed.

(** X24: A URL in which the base does not occur is requested as it is.  The URLs
    the API returns are of that kind: they name the host
    [www.swapi.tech]. *)
Theorem urlRequest_outside_base (url : string) :
  (¬ ∃ before after, url = before +:+ baseURL +:+ after) →
  urlRequest url = mkRequest url [].
Proof.
  intros Hno. unfold urlRequest. f_equal.
  assert (Hocc : occurs baseURL url = false).
  { destruct (occurs baseURL url) eqn:Ho; [|done].
    destruct Hno. by apply occurs_spec. }
  clear Hno. induction url as [|ch url IH]; [done|].
  rewrite replaceFirst_unfold.
  cbn [occurs] in Hocc. apply orb_false_iff in Hocc as [-> Hocc].
  by rewrite IH.
Qed.

Lemma urlRequest_outside_base_witness :
  urlRequest "https://www.swapi.tech/api/people/1"
  = mkRequest "https://www.swapi.tech/api/people/1" [].
Proof.
  apply urlRequest_outside_base.
  intros Hocc%occurs_spec. vm_compute in Hocc. discriminate.
Defined.

(** X25: The card of a related resource and the detail page it links to ask for
    the same thing: for the canonical URL of a known type, the request of
    [RelatedItem] is the request the detail page makes for the type and id
    parsed from that URL, namely [/type/id]. *)
Theorem related_card_and_detail_page_agree (type rid : string) :
  type ∈ resourceTypes → contains "/" rid = false → rid ≠ "" →
  let url := baseURL +:+ "/" +:+ type +:+ "/" +:+ rid in
  fetches (RelatedItem url) = [detailRequest type rid] ∧
  detailFetches (extractTypeFromUrl url) (extractIdFromUrl url)
    = [detailRequest type rid].
Proof.
  intros Htype Hslash Hrid url.
  destruct (extract_type_and_id_parts baseURL type rid Htype Hslash) as [Hty Hid].
  fold url in Hty, Hid. rewrite Hty, Hid. split.
  - unfold RelatedItem. rewrite Hty. simpl.
    unfold url, urlRequest. by rewrite replaceFirst_strips_prefix.
  - unfold detailFetches. simpl. rewrite validType_known by done.
    by apply String.eqb_neq in Hrid as ->.
Qed.

Lemma related_card_and_detail_page_agree_witness :
  fetches (RelatedItem "https://swapi.tech/api/films/2")
    = [detailRequest "films" "2"] ∧
  detailFetches (extractTypeFromUrl "https://swapi.tech/api/films/2")
                (extractIdFromUrl "https://swapi.tech/api/films/2")
    = [detailRequest "films" "2"].
Proof.
  apply (related_card_and_detail_page_agree "films" "2");
    [|reflexivity|discriminate].
  apply (bool_decide_unpack _). vm_compute. exact I.
Defined.

End UrlRequests.

(** * Properties of the session *)

Section Session.
Import Auth.

Lemma step_consistent (a : Action) (s : AuthState) :
  consistent s → consistent (step a s).
Proof.
  intros Hs. destruct a as [|u p| |]; simpl; try done.
  - unfold loginFinish. destruct (_ && _); [by left | done].
  - by right.
Qed.

Lemma run_consistent (actions : list Action) (s : AuthState) :
  consistent s → consistent (run actions s).
Proof.
  revert s. induction actions as [|a actions IH]; intros s Hs; [done|].
  apply IH. by apply step_consistent.
Qed.

(** X26: Whatever sequence of store actions runs from the initial state, also
    with the two halves of a login interleaved with other actions, the
    session flag and the user agree: the store is authenticated exactly when
    it holds the mock user, and what [partialize] persists is one of the two
    consistent pairs. *)
Theorem session_flag_matches_user (actions : list Action) :
  let s := run actions initialState in
  (isAuthenticated s = true ↔ user s = Some MOCK_USER) ∧
  (isAuthenticated s = false ↔ user s = None) ∧
  (partialize s = (Some MOCK_USER, true) ∨ partialize s = (None, false)).
Proof.
  intros s.
  assert (Hs : consistent s) by (apply run_consistent; by right).
  unfold partialize.
  destruct Hs as [[-> ->]|[-> ->]]; split_and!; try (split; done); auto.
Qed.

(** X27: A login that runs to its end stops loading; it signs in exactly for the
    credentials [demo] / [password] (compared as they are typed), and a
    refused login reports the error without touching the session: a user
    who was signed in stays signed in. *)
Theorem login_outcome (uname password : string) (s : AuthState) :
  let s' := login uname password s in
  isLoading s' = false ∧
  (uname = "demo" ∧ password = "password" →
   isAuthenticated s' = true ∧ user s' = Some MOCK_USER ∧ error s' = None) ∧
  (¬ (uname = "demo" ∧ password = "password") →
   isAuthenticated s' = isAuthenticated s ∧ user s' = user s ∧
   error s' = Some "Invalid username or password").
Proof.
  intros s'. unfold s', login, loginFinish.
  destruct (String.eqb uname "demo" && String.eqb password "password") eqn:Hok.
  - apply andb_true_iff in Hok as [Hu%String.eqb_eq Hp%String.eqb_eq].
    split_and!; try done. intros Hno. by destruct Hno.
  - split_and!; try done. intros [-> ->]. discriminate.
Qed.

Lemma login_outcome_witness :
  isAuthenticated (login "demo" "password" initialState) = true ∧
  isAuthenticated (login "Demo" "password" initialState) = false ∧
  error (login "Demo" "password" initialState)
    = Some "Invalid username or password".
Proof.
  destruct (login_outcome "demo" "password" initialState) as (_ & Hok & _).
  destruct (login_outcome "Demo" "password" initialState) as (_ & _ & Hbad).
  split_and!.
  - by apply Hok.
  - apply Hbad. intros [? _]. discriminate.
  - apply Hbad. intros [? _]. discriminate.
Defined.

(** X28: A signed-out visitor of a guarded page is sent to the login page with
    the page's path, and a successful login brings them to that very path,
    where the guard now lets them in; a refused login keeps them on the login
    page. *)
Theorem guarded_page_round_trip (s : AuthState) (pathname : string) :
  isAuthenticated s = false → pathname ≠ "" →
  ProtectedRoute s pathname = Navigate "/login" (Some pathname) ∧
  loginRedirect (login "demo" "password" s) (Some pathname) = Some pathname ∧
  ProtectedRoute (login "demo" "password" s) pathname = RenderChildren ∧
  (∀ uname password,
     ¬ (uname = "demo" ∧ password = "password") →
     loginRedirect (login uname password s) (Some pathname) = None).
Proof.
  intros Hout Hpath. unfold ProtectedRoute, loginRedirect. rewrite Hout.
  apply String.eqb_neq in Hpath. split_and!; simpl; try done.
  - by rewrite Hpath.
  - intros uname password Hbad. unfold login, loginFinish.
    destruct (String.eqb uname "demo" && String.eqb password "password") eqn:Hok.
    + apply andb_true_iff in Hok as [Hu%String.eqb_eq Hp%String.eqb_eq].
      by destruct Hbad.
    + simpl. by rewrite Hout.
Qed.

Lemma guarded_page_round_trip_witness :
  ProtectedRoute initialState "/resources/people/1"
    = Navigate "/login" (Some "/resources/people/1") ∧
  loginRedirect (login "demo" "password" initialState)
    (Some "/resources/people/1") = Some "/resources/people/1".
Proof.
  destruct (guarded_page_round_trip initialState "/resources/people/1")
    as (Hnav & Hback & _); [reflexivity | discriminate |].
  by split.
Defined.

(** Logging out always ends the session, whatever the state: every guarded
    path redirects to the login page, the landing page leads to the login and
    the persisted pair is cleared.  But a login that was started before the
    logout and finishes after it signs the user in again. *)
Theorem logout_ends_session (s : AuthState) :
  (∀ pathname, ProtectedRoute (logout s) pathname
                 = Navigate "/login" (Some pathname)) ∧
  handleGetStarted (logout s) = "/login" ∧
  handleGoHome (logout s) = "/" ∧
  partialize (logout s) = (None, false) ∧
  isAuthenticated (run [LoginStart; Logout; LoginFinish "demo" "password"] s) = true.
Proof. by split_and!. Qed.

End Session.

(** * Properties of the detail page's tabs and cards *)

Section DetailTabs.
Import ResourceDetail ResourceDetailView.

Lemma relationTabs_plain (k : string) :
  k ∈ relationTabs →
  String.eqb k "" = false ∧ String.eqb k "details" = false ∧
  String.eqb k "homeworld" = false ∧ k ∈ excludeProps.
Proof.
  unfold relationTabs. intros Hin.
  repeat (apply elem_of_cons in Hin as [->|Hin];
          [split_and!; try reflexivity;
           apply (bool_decide_unpack _); vm_compute; exact I|]).
  by apply elem_of_nil in Hin.
Qed.

Lemma arrayRelation_Some (fields : gmap string JsVal) (k : string)
    (urls : list JsVal) :
  arrayRelation fields k = Some urls →
  lookupMember fields k = JArr urls ∧ urls ≠ [].
Proof.
  unfold arrayRelation. destruct (inProperties fields k); [|discriminate].
  destruct (lookupMember fields k) as [| | | | |[|u us]| |]; try discriminate.
  by intros [= <-].
Qed.

(** X29: Every tab that is shown has something to show: selecting it renders one
    [RelatedItem] per URL of the relation, as many as the count in the tab's
    label says, and a single one for the homeworld; the text "No related ...
    found." never appears under a tab that is offered. *)
Theorem shown_tabs_have_content (fields : gmap string JsVal) (tabs : list Tab)
    (tab : Tab) :
  renderRelatedTabs (Some fields) = Some tabs →
  tab ∈ tabs →
  ∃ urls,
    renderRelatedContent (Some fields) (Some (tab_value tab)) = RelatedItems urls ∧
    urls ≠ [] ∧
    (∀ n, tab_count tab = Some n → length urls = n) ∧
    (tab_count tab = None → length urls = 1).
Proof.
  intros Htabs Hin. unfold renderRelatedTabs in Htabs.
  apply (inj Some) in Htabs. rewrite <- Htabs in Hin. clear Htabs.
  apply elem_of_app in Hin as [Hin|Hin].
  - apply list_elem_of_omap in Hin as (k & Hk & Htab).
    destruct (arrayRelation fields k) as [urls|] eqn:Hrel; [|discriminate].
    injection Htab as <-. simpl.
    destruct (relationTabs_plain k Hk) as (He & Hd & Hh & _).
    destruct (arrayRelation_Some fields k urls Hrel) as [Hl Hne].
    exists urls. unfold renderRelatedContent. rewrite He, Hd, Hh, Hl. simpl.
    destruct urls as [|u us]; [done|].
    split_and!; try done. by intros n [= <-].
  - destruct (inProperties fields "homeworld"
              && truthy (lookupMember fields "homeworld")) eqn:Hhw;
      [|by apply elem_of_nil in Hin].
    apply list_elem_of_singleton in Hin as ->. simpl.
    apply andb_true_iff in Hhw as [Hin _].
    exists [lookupMember fields "homeworld"].
    unfold renderRelatedContent. simpl. rewrite Hin. by split_and!.
Qed.

Lemma shown_tabs_have_content_witness :
  ∃ urls,
    renderRelatedContent (Some (list_to_map lukeEntries)) (Some "films")
      = RelatedItems urls ∧
    urls ≠ [] ∧
    (∀ n, Some 2 = Some n → length urls = n) ∧
    (Some 2 = None → length urls = 1).
Proof.
  apply (shown_tabs_have_content (list_to_map lukeEntries)
           [mkTab "films" (Some 2); mkTab "homeworld" None] (mkTab "films" (Some 2))).
  - vm_compute. reflexivity.
  - apply list_elem_of_here.
Defined.

Lemma replaceAll_clean (s : string) :
  contains "_" (replaceAll "_" " " s) = false ∧
  String.length (replaceAll "_" " " s) = String.length s.
Proof.
  induction s as [|ch s [IH1 IH2]]; simpl; [done|].
  rewrite IH1, IH2. split; [|done].
  destruct (Ascii.eqb ch "_") eqn:Hch; simpl; [done|]. by rewrite Hch.
Qed.

(** X30: The details grid and the tabs never show the same field: a card is made
    for an entry of the resource whose key is not an excluded one (relations,
    time stamps, the self URL), its label has no underscore left, and every
    tab stands for an excluded key; tab values are pairwise different. *)
Theorem cards_and_tabs_disjoint (entries : list (string * JsVal))
    (properties : Properties) (tabs : list Tab) :
  renderRelatedTabs properties = Some tabs →
  (∀ card, card ∈ renderProperties entries →
     (card_key card ∉ excludeProps) ∧
     (card_key card, card_value card) ∈ entries ∧
     contains "_" (card_label card) = false) ∧
  (∀ tab, tab ∈ tabs → tab_value tab ∈ excludeProps) ∧
  (∀ card tab, card ∈ renderProperties entries → tab ∈ tabs →
     card_key card ≠ tab_value tab) ∧
  NoDup (tab_value <$> tabs).
Proof.
  intros Htabs.
  assert (Hcards : ∀ card, card ∈ renderProperties entries →
     (card_key card ∉ excludeProps) ∧
     (card_key card, card_value card) ∈ entries ∧
     contains "_" (card_label card) = false).
  { intros card (kv & -> & [Hkey Hin]%list_elem_of_filter)%list_elem_of_fmap.
    simpl. split_and!; [done| by destruct kv | apply replaceAll_clean]. }
  destruct properties as [fields|]; [|discriminate].
  unfold renderRelatedTabs in Htabs. apply (inj Some) in Htabs. subst tabs.
  assert (Htab : ∀ tab,
     tab ∈ omap (λ k, (λ urls : list JsVal, mkTab k (Some (length urls)))
                        <$> arrayRelation fields k) relationTabs
           ++ (if inProperties fields "homeworld"
                  && truthy (lookupMember fields "homeworld")
               then [mkTab "homeworld" None] else []) →
     tab_value tab ∈ excludeProps).
  { intros tab [Hin|Hin]%elem_of_app.
    - apply list_elem_of_omap in Hin as (k & Hk & Htab).
      destruct (arrayRelation fields k); [|discriminate]. injection Htab as <-.
      simpl. by apply relationTabs_plain.
    - destruct (_ && _); [|by apply elem_of_nil in Hin].
      apply list_elem_of_singleton in Hin as ->.
      apply (bool_decide_unpack _). vm_compute. exact I. }
  split_and!; [done | done | |].
  - intros card tab Hc Ht Heq. destruct (Hcards card Hc) as [Hno _].
    apply Hno. rewrite Heq. by apply Htab.
  - rewrite fmap_app. apply NoDup_app. split_and!.
    + apply (sublist_NoDup _ relationTabs);
        [apply (bool_decide_unpack _); vm_compute; exact I|].
      generalize relationTabs. intros ks.
      induction ks as [|k ks IH]; simpl; [constructor|].
      destruct (arrayRelation fields k); simpl;
        [by apply sublist_skip | by apply sublist_cons].
    + intros v (tab & -> & Hin)%list_elem_of_fmap Hhw.
      apply list_elem_of_omap in Hin as (k & Hk & Htk).
      destruct (arrayRelation fields k); [|discriminate]. injection Htk as <-.
      simpl in Hhw. destruct (_ && _); [|by apply elem_of_nil in Hhw].
      apply list_elem_of_singleton in Hhw. subst k.
      by destruct (relationTabs_plain "homeworld" Hk) as (_ & _ & ? & _).
    + destruct (_ && _); simpl; [apply NoDup_singleton | constructor].
Qed.

Lemma cards_and_tabs_disjoint_witness :
  "films" ∈ excludeProps ∧
  NoDup (tab_value <$> [mkTab "films" (Some 2); mkTab "homeworld" None]).
Proof.
  destruct (cards_and_tabs_disjoint lukeEntries (Some (list_to_map lukeEntries))
              [mkTab "films" (Some 2); mkTab "homeworld" None])
    as (_ & Htab & _ & Hnd); [vm_compute; reflexivity|].
  split; [|exact Hnd].
  apply (Htab (mkTab "films" (Some 2))). apply list_elem_of_here.
Defined.

Example renderProperties_luke :
  card_label <$> renderProperties lukeEntries = ["name"; "birth year"].
Proof. vm_compute. reflexivity. Qed.

End DetailTabs.

(** * Further properties of responses, requests and recorded names *)

Section ShapesAndNames.
Import ResourceList Api ResourceDetail.

Lemma shape_test_object (fields : gmap string JsVal) (k : string) :
  inherited k = false →
  (b ← has_in k (JObj fields);
   if b : bool then r ← get (JObj fields) k; mret (isArray r) else mret false)
  = Ok (match fields !! k with Some (JArr _) => true | _ => false end).
Proof.
  intros Hk. unfold has_in, get, lookupMember. rewrite Hk, orb_false_r.
  destruct (fields !! k) as [v|] eqn:Hv.
  - rewrite bool_decide_eq_true_2 by (by eexists). simpl. by destruct v.
  - rewrite bool_decide_eq_false_2 by (by intros [? ?]). done.
Qed.

(** X6: On an object response the two shape tests never throw, and they read
    the response as the API documents it: search-shaped exactly when the
    object has a [result] property holding an array, list-shaped (when the
    first test fails) exactly when it has a [results] property holding an
    array. *)
Theorem shape_of_object_response (fields : gmap string JsVal) :
  (isSearchResponse (JObj fields) = Ok true ↔
   ∃ xs, fields !! "result" = Some (JArr xs)) ∧
  (isPaginatedResponse (JObj fields) = Ok true ↔
   ∃ xs, fields !! "results" = Some (JArr xs)) ∧
  (∃ b, isSearchResponse (JObj fields) = Ok b) ∧
  (∃ b, isPaginatedResponse (JObj fields) = Ok b).
Proof.
  assert (Hs : isSearchResponse (JObj fields)
    = Ok (match fields !! "result" with Some (JArr _) => true | _ => false end))
    by (by apply (shape_test_object fields "result")).
  assert (Hp : isPaginatedResponse (JObj fields)
    = Ok (match fields !! "results" with Some (JArr _) => true | _ => false end))
    by (by apply (shape_test_object fields "results")).
  rewrite Hs, Hp. split_and!; try by eexists.
  - destruct (fields !! "result") as [[]|]; split;
      try discriminate; try (by intros [? [=]]); by eexists.
  - destruct (fields !! "results") as [[]|]; split;
      try discriminate; try (by intros [? [=]]); by eexists.
Qed.

(** An empty search term is no search term: the request carries the page
    alone (page 1 when none is given), it is the request made without a
    term, and only a non-empty term adds the [name] parameter. *)
Theorem empty_search_is_plain_list (transport : Request → Result JsVal)
    (type : string) (page : option Z) (c : Console) :
  getResources transport type page (Some "") c
    = getResources transport type page None c ∧
  listRequest type page (Some "")
    = mkRequest ("/" +:+ type) [("page", JNum (default 1%Z page))] ∧
  (∀ term, term ≠ "" →
     listRequest type page (Some term)
       = mkRequest ("/" +:+ type)
           [("page", JNum (default 1%Z page)); ("name", JStr term)]).
Proof.
  split_and!; try done.
  intros term Hterm. unfold listRequest, listParams, searchGiven.
  by apply String.eqb_neq in Hterm as ->.
Qed.

Lemma empty_search_is_plain_list_witness :
  listRequest "people" None (Some "Luke")
  = mkRequest "/people" [("page", JNum 1); ("name", JStr "Luke")].
Proof.
  destruct (empty_search_is_plain_list offline "people" None []) as (_ & _ & Hterm).
  apply Hterm. discriminate.
Defined.



End ShapesAndNames.
